(** * Piecewise validation of Submitty configuration documents

    A shallow embedding of
    [python_submitty_utils/submitty_utils/submitty_schema_validator.py]:
    the exception class [SubmittySchemaException], the chunk validator
    [validate_schema] and the driver [complete_config_validator].

    Python values are JSON trees; a call either returns or raises, and
    what it prints and which calls it makes to [jsonschema.validate] are
    recorded, in order, in a trace.  [jsonschema.validate] and
    [json.dumps] are library functions and stay abstract. *)

From Stdlib Require Import String Ascii List ZArith Lia.
From Stdlib Require Import DecimalString.
Import ListNotations.
Open Scope list_scope.
Open Scope string_scope.
Set Warnings "-register-all".


(** ** JSON values, as [json.load] builds them *)

(** [JNull] is Python's [None].  An object is the list of its items in
    document order (a [dict] has each key once).  The validator never
    looks inside a number, so numbers are kept as integers. *)
Inductive json : Type :=
| JNull
| JBool (b : bool)
| JNum (n : Z)
| JStr (s : string)
| JArr (items : list json)
| JObj (fields : list (string * json)).

Fixpoint lookup (key : string) (fields : list (string * json)) : option json :=
  match fields with
  | [] => None
  | (k, v) :: rest => if String.eqb k key then Some v else lookup key rest
  end.

Definition is_None (j : json) : bool :=
  match j with JNull => true | _ => false end.

(** ** Exceptions *)

(** [e.message] of the error object handed to the constructor. *)
Record ValidationError : Type := { message : option string }.

(** The [message] argument of the constructor: a string at line 140,
    a pair of strings at line 125 (the parenthesised expression there has
    a comma in it, so it is a tuple). *)
Inductive py_message : Type :=
| MsgStr (s : string)
| MsgTuple (parts : list string).

(** The attributes set by [SubmittySchemaException.__init__]. *)
Record SubmittySchemaException : Type := {
  config_json : json;
  schema : json;
  my_message : py_message;
  title : string;
  schema_message : option string
}.

Inductive exn : Type :=
| SubmittySchemaExn (r : SubmittySchemaException)
| AttributeError
| KeyError (key : string)
| TypeError
| MatcherError (name : string).

Inductive result (A : Type) : Type :=
| Ok (a : A)
| Raise (e : exn).
Arguments Ok {A} a.
Arguments Raise {A} e.

(** ** Traces *)

Inductive stream : Type := Stdout | Stderr.

Inductive event : Type :=
| EvPrint (out : stream) (line : string)
| EvValidate (instance schema : json).

(** ** The monad of the embedding: a trace, then a result *)

Definition M (A : Type) : Type := (list event * result A)%type.

Definition ret {A} (a : A) : M A := ([], Ok a).

Definition raise {A} (e : exn) : M A := ([], Raise e).

Definition lift {A} (r : result A) : M A := ([], r).

Definition bind {A B} (m : M A) (f : A -> M B) : M B :=
  match m with
  | (tr, Ok a) => let (tr', r) := f a in ((tr ++ tr')%list, r)
  | (tr, Raise e) => (tr, Raise e)
  end.

Notation "x <- m ;; k" := (bind m (fun x => k))
  (at level 61, m at next level, right associativity).
Notation "m ;;; k" := (bind m (fun _ => k))
  (at level 61, right associativity).

Definition print (out : stream) (line : string) : M unit :=
  ([EvPrint out line], Ok tt).

(** [try: body  except SubmittySchemaException: handler]; any other
    exception passes through. *)
Definition try_except {A} (body : M A) (handler : M A) : M A :=
  match body with
  | (tr, Raise (SubmittySchemaExn _)) =>
      let (tr', r) := handler in ((tr ++ tr')%list, r)
  | other => other
  end.

(** [for x in l: body], without loop state. *)
Fixpoint for_each {A} (l : list A) (body : A -> M unit) : M unit :=
  match l with
  | [] => ret tt
  | x :: rest => body x ;;; for_each rest body
  end.

(** [for x in l: body], the body updating the loop's local variables. *)
Fixpoint for_state {A S} (l : list A) (body : A -> S -> M S) (s : S) : M S :=
  match l with
  | [] => ret s
  | x :: rest => s' <- body x s ;; for_state rest body s'
  end.

(** ** Python primitives on JSON values *)

(** [obj[key]] with a string key. *)
Definition subscript (obj : json) (key : string) : result json :=
  match obj with
  | JObj fields =>
      match lookup key fields with
      | Some v => Ok v
      | None => Raise (KeyError key)
      end
  | _ => Raise TypeError
  end.

(** [obj.get(key, None) if obj is not None else obj]. *)
Definition py_get (obj : json) (key : string) : result json :=
  match obj with
  | JNull => Ok JNull
  | JObj fields =>
      match lookup key fields with
      | Some v => Ok v
      | None => Ok JNull
      end
  | _ => Raise AttributeError
  end.

Fixpoint chars (s : string) : list json :=
  match s with
  | EmptyString => []
  | String c rest => JStr (String c EmptyString) :: chars rest
  end.

(** The elements a [for] statement visits: the items of a list, the keys
    of a dict, the characters of a string. *)
Definition py_iter (obj : json) : result (list json) :=
  match obj with
  | JArr items => Ok items
  | JObj fields => Ok (map (fun kv => JStr (fst kv)) fields)
  | JStr s => Ok (chars s)
  | _ => Raise TypeError
  end.

(** [str(n)] for a non-negative integer. *)
Definition str_of_nat (n : nat) : string :=
  NilEmpty.string_of_uint (Nat.to_uint n).

(** ** class SubmittySchemaException *)

(** [__init__] (lines 14-21).  Its first statement reads
    [schema_error.message], which is an [AttributeError] on [None]. *)
Definition SubmittySchemaException_init
    (config_json_ schema_ : json) (message_ : py_message) (title_ : string)
    (schema_error : option ValidationError) : result SubmittySchemaException :=
  match schema_error with
  | None => Raise AttributeError
  | Some e =>
      Ok {| config_json := config_json_;
            schema := schema_;
            my_message := message_;
            title := title_;
            schema_message := message e |}
  end.

(** [raise SubmittySchemaException(...)]: the constructor runs first. *)
Definition raise_schema_exception {A}
    (config_json_ schema_ : json) (message_ : py_message) (title_ : string)
    (schema_error : option ValidationError) : M A :=
  match SubmittySchemaException_init config_json_ schema_ message_ title_
          schema_error with
  | Ok r => raise (SubmittySchemaExn r)
  | Raise e => raise e
  end.

(** [jsonschema.validate(instance=..., schema=...)] returns, raises
    [ValidationError], or raises something else ([SchemaError], ...). *)
Inductive validate_outcome : Type :=
| Valid
| Invalid (e : ValidationError)
| Raises (name : string).

(** The chunk pair of lines 117-122. *)
Definition resolve (j_ s_ : json) (key : string) : result (json * json) :=
  if String.eqb key "" then Ok (j_, s_)
  else
    match py_get j_ key with
    | Ok my_json_chunk =>
        match py_get s_ key with
        | Ok my_schema => Ok (my_json_chunk, my_schema)
        | Raise e => Raise e
        end
    | Raise e => Raise e
    end.

Section Validator.

Variable validate : json -> json -> validate_outcome.

(** [json.dumps(..., indent=4)], and [str] of a tuple of strings. *)
Variable json_dumps : json -> string.
Variable str_of_tuple : list string -> string.

Definition str_of_message (m : py_message) : string :=
  match m with
  | MsgStr s => s
  | MsgTuple parts => str_of_tuple parts
  end.

(** [print_human_readable_error] (lines 23-31). *)
Definition print_human_readable_error (self : SubmittySchemaException)
  : M unit :=
  print Stderr "" ;;;
  print Stderr (str_of_message (my_message self) ++ ":") ;;;
  match schema_message self with
  | Some detail =>
      print Stderr detail ;;;
      print Stderr
        "The portion of your configuration that caused the error is:" ;;;
      print Stderr (json_dumps (config_json self))
  | None => ret tt
  end.

(** The call to the matcher inside [try ... except ValidationError]. *)
Definition call_validate (instance schema_ : json) : M validate_outcome :=
  ([EvValidate instance schema_], Ok (validate instance schema_)).

(** [validate_schema] (lines 109-145).  [required] is a parameter of the
    source function as well. *)
Definition validate_schema (j_ s_ : json) (key prefix : string)
    (required warn : bool) : M unit :=
  let descriptive_title := prefix ++ " " ++ key in
  chunks <- lift (resolve j_ s_ key) ;;
  let my_json_chunk := fst chunks in
  let my_schema := snd chunks in
  if is_None my_schema then
    let msg := MsgTuple
      ["ERROR: There is no specification for " ++ key ++ " in the schema.";
       " Please add a specification."] in
    raise_schema_exception j_ s_ msg descriptive_title None
  else if is_None my_json_chunk then
    (if warn then
       print Stdout ("WARNING: could not identify " ++ descriptive_title
                       ++ " (" ++ key ++ ")")
     else ret tt)
  else
    outcome <- call_validate my_json_chunk my_schema ;;
    match outcome with
    | Valid => ret tt
    | Invalid e =>
        let msg := MsgStr ("ERROR: " ++ descriptive_title
                             ++ " was not properly formatted") in
        raise_schema_exception my_json_chunk my_schema msg
          descriptive_title (Some e)
    | Raises name => raise (MatcherError name)
    end.

(** ** complete_config_validator (lines 34-106) *)

Definition global_keys : list string :=
  ["autograding"; "autograding_method"; "container_options";
   "resource_limits"].

Definition testcase_keys : list string :=
  ["dispatcher_actions"; "actions"; "points"; "type"; "pre_commands";
   "single_port_per_container"; "use_router"; "title"; "hidden";
   "extra_credit"; "input_generation_commands"; "executable_name";
   "testcase_label"].

(** The schema fragments bound at lines 51-57. *)
Record fragments : Type := {
  t_s : json;
  p_s : json;
  sub_limit_schema : json;
  filecheck_schema : json;
  c_schema : json;
  abs_v_schema : json;
  spec_v_schema : json
}.

(** [s_['definitions'][name]]. *)
Definition definition (s_ : json) (name : string) : result json :=
  match subscript s_ "definitions" with
  | Ok defs => subscript defs name
  | Raise e => Raise e
  end.

(** Lines 51-57, in the order of the source. *)
Definition load_fragments (s_ : json) : M fragments :=
  t_s_ <- lift (definition s_ "testcase") ;;
  tc <- lift (definition s_ "testcase") ;;
  p_s_ <- lift (subscript tc "properties") ;;
  sub_limit_schema_ <- lift (definition s_ "submission_limit") ;;
  filecheck_schema_ <- lift (definition s_ "filecheck") ;;
  c_schema_ <- lift (definition s_ "container") ;;
  abs_v_schema_ <- lift (definition s_ "abstract_validation_object") ;;
  spec_v_schema_ <- lift (definition s_ "validator_definitions") ;;
  ret {| t_s := t_s_; p_s := p_s_;
         sub_limit_schema := sub_limit_schema_;
         filecheck_schema := filecheck_schema_;
         c_schema := c_schema_;
         abs_v_schema := abs_v_schema_;
         spec_v_schema := spec_v_schema_ |}.

(** Lines 45-47. *)
Definition global_step (j_ s_prop : json) (warn : bool) : M unit :=
  for_each global_keys
    (fun key => validate_schema j_ s_prop key "global" true warn).

(** Lines 65-72: the loop over the two extra schemas.  Its state is
    [(testcase_num, success)]; there is no [break] in it. *)
Definition kind_disambiguator (t : json) (fr : fragments) (warn : bool)
    (testcase_num : nat) : M (nat * bool) :=
  for_state [sub_limit_schema fr; filecheck_schema fr]
    (fun extra_schema st =>
       try_except
         (validate_schema t extra_schema "" "" false warn ;;;
          ret (S (fst st), true))
         (ret st))
    (testcase_num, false).

(** Lines 76-104: a testcase that neither extra schema accepted.  The
    counter [validator_num] of lines 96 and 101 is never read and is left
    out. *)
Definition regular_testcase (t : json) (fr : fragments) (warn : bool)
    (testcase_num : nat) : M nat :=
  let t_name := "testcase_" ++ str_of_nat testcase_num in
  for_each testcase_keys
    (fun key => validate_schema t (p_s fr) key t_name true warn) ;;;
  containers <- lift (subscript t "containers") ;;
  cs <- lift (py_iter containers) ;;
  for_each cs
    (fun c => validate_schema c (c_schema fr) "" t_name true warn) ;;;
  solution_containers <- lift (subscript t "solution_containers") ;;
  scs <- lift (py_iter solution_containers) ;;
  for_each scs
    (fun c => validate_schema c (c_schema fr) "" t_name true warn) ;;;
  validators <- lift (subscript t "validation") ;;
  vs <- lift (py_iter validators) ;;
  for_each vs
    (fun v =>
       validate_schema v (abs_v_schema fr) "" t_name true warn ;;;
       validate_schema v (spec_v_schema fr) "" t_name true warn) ;;;
  let testcase_num' := S testcase_num in
  validate_schema t (t_s fr) "" t_name true warn ;;;
  ret testcase_num'.

(** Lines 62-104: one turn of the loop over the testcases. *)
Definition testcase_body (fr : fragments) (warn : bool) (t : json)
    (testcase_num : nat) : M nat :=
  st <- kind_disambiguator t fr warn testcase_num ;;
  if snd st then ret (fst st)
  else regular_testcase t fr warn (fst st).

(** Lines 59-104. *)
Definition testcase_loop (fr : fragments) (warn : bool) (ts : list json)
    (testcase_num : nat) : M nat :=
  for_state ts (testcase_body fr warn) testcase_num.

(** Lines 43-104: everything before the last statement. *)
Definition piecewise_checks (j_ s_ : json) (warn : bool) : M unit :=
  s_prop <- lift (subscript s_ "properties") ;;
  global_step j_ s_prop warn ;;;
  testcases <- lift (subscript j_ "testcases") ;;
  fr <- load_fragments s_ ;;
  ts <- lift (py_iter testcases) ;;
  testcase_loop fr warn ts 1 ;;;
  ret tt.

(** Line 106. *)
Definition whole_document_step (j_ s_ : json) (warn : bool) : M unit :=
  validate_schema j_ s_ "" "Your config json" true warn.

Definition complete_config_validator (j_ s_ : json) (warn : bool) : M unit :=
  s_prop <- lift (subscript s_ "properties") ;;
  global_step j_ s_prop warn ;;;
  testcases <- lift (subscript j_ "testcases") ;;
  fr <- load_fragments s_ ;;
  ts <- lift (py_iter testcases) ;;
  testcase_loop fr warn ts 1 ;;;
  validate_schema j_ s_ "" "Your config json" true warn.

End Validator.

Arguments print_human_readable_error json_dumps str_of_tuple self : clear implicits.

(** ** A small matcher and documents to run the validator on

    [ref_validate] implements two keywords of JSON Schema, [type] and
    [required], which is enough to run the driver on concrete documents;
    any other keyword is ignored. *)

Definition type_name (j : json) : string :=
  match j with
  | JNull => "null"
  | JBool _ => "boolean"
  | JNum _ => "integer"
  | JStr _ => "string"
  | JArr _ => "array"
  | JObj _ => "object"
  end.

Definition has_type (j : json) (t : string) : bool :=
  String.eqb t (type_name j)
  || (String.eqb t "number" && String.eqb (type_name j) "integer").

Fixpoint first_missing (required : list json) (fields : list (string * json))
  : option string :=
  match required with
  | [] => None
  | JStr k :: rest =>
      match lookup k fields with
      | Some _ => first_missing rest fields
      | None => Some k
      end
  | _ :: rest => first_missing rest fields
  end.

Definition check_required (instance : json) (kws : list (string * json))
  : validate_outcome :=
  match instance, lookup "required" kws with
  | JObj fields, Some (JArr required) =>
      match first_missing required fields with
      | Some k => Invalid {| message := Some ("'" ++ k ++ "' is a required property") |}
      | None => Valid
      end
  | _, _ => Valid
  end.

Definition ref_validate (instance schema_ : json) : validate_outcome :=
  match schema_ with
  | JObj kws =>
      match lookup "type" kws with
      | Some (JStr t) =>
          if has_type instance t then check_required instance kws
          else Invalid {| message := Some ("instance is not of type '" ++ t ++ "'") |}
      | _ => check_required instance kws
      end
  | JBool true => Valid
  | JBool false => Invalid {| message := Some "False schema does not allow the instance" |}
  | _ => Raises "SchemaError"
  end.

Definition ref_dumps (j : json) : string :=
  match j with
  | JNull => "null"
  | JBool true => "true"
  | JBool false => "false"
  | JArr [] => "[]"
  | JObj [] => "{}"
  | _ => "<json>"
  end.

Definition ref_str_of_tuple (parts : list string) : string :=
  "(" ++ String.concat ", " parts ++ ")".

Definition of_type (t : string) : json := JObj [("type", JStr t)].

Definition requiring (k : string) : json :=
  JObj [("type", JStr "object"); ("required", JArr [JStr k])].

Definition example_testcase_schema : json :=
  JObj [("type", JStr "object");
        ("properties",
         JObj [("dispatcher_actions", of_type "array");
               ("actions", of_type "array");
               ("points", of_type "integer");
               ("type", of_type "string");
               ("pre_commands", of_type "array");
               ("single_port_per_container", of_type "boolean");
               ("use_router", of_type "boolean");
               ("title", of_type "string");
               ("hidden", of_type "boolean");
               ("extra_credit", of_type "boolean");
               ("input_generation_commands", of_type "array");
               ("executable_name", of_type "string");
               ("testcase_label", of_type "string")])].

Definition example_definitions : json :=
  JObj [("testcase", example_testcase_schema);
        ("submission_limit", requiring "max_submissions");
        ("filecheck", requiring "actual_file");
        ("container", of_type "object");
        ("abstract_validation_object", requiring "method");
        ("validator_definitions", of_type "object")].

Definition example_schema : json :=
  JObj [("type", JStr "object");
        ("required", JArr [JStr "testcases"; JStr "autograding"]);
        ("properties",
         JObj [("autograding", of_type "object");
               ("autograding_method", of_type "string");
               ("container_options", of_type "object");
               ("resource_limits", of_type "object");
               ("testcases", of_type "array")]);
        ("definitions", example_definitions)].

Definition example_testcase (points : json) : json :=
  JObj [("type", JStr "Compilation");
        ("points", points);
        ("containers", JArr [JObj [("commands", JArr [])]]);
        ("solution_containers", JArr []);
        ("validation", JArr [JObj [("method", JStr "diff")]])].

Definition example_config : json :=
  JObj [("autograding", JObj []);
        ("resource_limits", JObj []);
        ("testcases", JArr [example_testcase (JNum 5)])].

(** Trimming as the specification words it: the title with the white
    space at both ends removed ([str.strip]). *)
Definition is_space (c : ascii) : bool :=
  match nat_of_ascii c with
  | 32 | 9 | 10 | 11 | 12 | 13 => true
  | _ => false
  end.

Fixpoint lstrip (l : list ascii) : list ascii :=
  match l with
  | c :: rest => if is_space c then lstrip rest else l
  | [] => []
  end.

Definition strip (s : string) : string :=
  string_of_list_ascii
    (rev (lstrip (rev (lstrip (list_ascii_of_string s))))).


Definition is_validate (ev : event) : bool :=
  match ev with EvValidate _ _ => true | _ => false end.

Definition on_stderr (ev : event) : Prop :=
  match ev with EvPrint Stderr _ => True | _ => False end.



(** The warning of line 134. *)
Definition warning_line (prefix key : string) : event :=
  EvPrint Stdout
    ("WARNING: could not identify " ++ (prefix ++ " " ++ key)
       ++ " (" ++ key ++ ")").

(** The report of lines 140-145. *)
Definition format_report (chunk chunk_schema : json) (prefix key : string)
    (e : ValidationError) : SubmittySchemaException :=
  {| config_json := chunk;
     schema := chunk_schema;
     my_message :=
       MsgStr ("ERROR: " ++ (prefix ++ " " ++ key)
                 ++ " was not properly formatted");
     title := prefix ++ " " ++ key;
     schema_message := message e |}.

(** A report whose [schema_message] is [None], as the constructor builds
    it from an error object whose [message] is [None]. *)
Definition report_without_detail : SubmittySchemaException :=
  {| config_json := JObj [];
     schema := of_type "integer";
     my_message := MsgStr "ERROR: testcase_1 points was not properly formatted";
     title := "testcase_1 points";
     schema_message := None |}.

(** The fragments [load_fragments] reads from [example_schema]. *)
Definition example_fragments : fragments :=
  {| t_s := example_testcase_schema;
     p_s := match subscript example_testcase_schema "properties" with
            | Ok p => p
            | Raise _ => JNull
            end;
     sub_limit_schema := requiring "max_submissions";
     filecheck_schema := requiring "actual_file";
     c_schema := of_type "object";
     abs_v_schema := requiring "method";
     spec_v_schema := of_type "object" |}.

(** Testcase entries: one that only the submission_limit schema accepts,
    and one that both extra schemas accept. *)
Definition sub_limit_entry : json :=
  JObj [("type", JStr "SubmissionLimit"); ("max_submissions", JNum 20)].

Definition both_kinds_entry : json :=
  JObj [("max_submissions", JNum 20); ("actual_file", JStr "README.txt")].

(** Configurations with one defect each, and one with two. *)
Definition config_without_testcases : json :=
  JObj [("autograding", JObj [])].

Definition config_without_autograding : json :=
  JObj [("testcases", JArr [example_testcase (JNum 5)])].

Definition config_with_two_violations : json :=
  JObj [("autograding", JObj []);
        ("resource_limits", JNum 5);
        ("testcases", JArr [example_testcase (JStr "ten")])].



(** Results of the Python primitives: they never raise a report. *)
Definition no_report {A} (res : result A) : Prop :=
  match res with
  | Raise (SubmittySchemaExn _) => False
  | _ => True
  end.

(** Whether the matcher accepts an entry under one of the extra schemas. *)
Definition accepts (validate : json -> json -> validate_outcome)
    (t extra_schema : json) : bool :=
  match validate t extra_schema with
  | Valid => true
  | _ => false
  end.

Definition matcher_answers (validate : json -> json -> validate_outcome)
    (t extra_schema : json) : Prop :=
  forall name, validate t extra_schema <> Raises name.

(** A property of every event of a run, and of every report it raises. *)
Definition trace_all {A} (P : event -> Prop) (m : M A) : Prop :=
  Forall P (fst m).

Definition raises_only {A} (P : SubmittySchemaException -> Prop) (m : M A)
  : Prop :=
  forall r, snd m = Raise (SubmittySchemaExn r) -> P r.

(** What the validator may leave in a trace: matcher calls, and with
    [warn] the warning of line 134. *)
Definition validator_event (warn : bool) (ev : event) : Prop :=
  (exists instance schema_, ev = EvValidate instance schema_)
  \/ (warn = true /\ exists prefix key, ev = warning_line prefix key).

(** The shape of a report built at lines 140-145. *)
Definition well_formed_report (validate : json -> json -> validate_outcome)
    (r : SubmittySchemaException) : Prop :=
  config_json r <> JNull
  /\ schema r <> JNull
  /\ my_message r
     = MsgStr ("ERROR: " ++ title r ++ " was not properly formatted")
  /\ exists e,
      validate (config_json r) (schema r) = Invalid e
      /\ schema_message r = message e.

(** JSON values that are neither null nor a mapping, and values a [for]
    statement cannot iterate. *)
Definition is_scalar_or_array (j : json) : bool :=
  match j with
  | JNull | JObj _ => false
  | _ => true
  end.

Definition not_iterable (j : json) : bool :=
  match j with
  | JNull | JBool _ | JNum _ => true
  | _ => false
  end.

(** The names looked up under [definitions] at lines 51-57. *)
Definition fragment_names : list string :=
  ["testcase"; "submission_limit"; "filecheck"; "container";
   "abstract_validation_object"; "validator_definitions"].

(** [for x in t[key]]: the elements visited by the loops of lines 88, 92
    and 98. *)
Definition elements (t : json) (key : string) : result (list json) :=
  match subscript t key with
  | Ok v => py_iter v
  | Raise e => Raise e
  end.

(** Fragments of a schema whose [definitions] hold null under
    "filecheck". *)
Definition fragments_without_filecheck : fragments :=
  {| t_s := t_s example_fragments;
     p_s := p_s example_fragments;
     sub_limit_schema := sub_limit_schema example_fragments;
     filecheck_schema := JNull;
     c_schema := c_schema example_fragments;
     abs_v_schema := abs_v_schema example_fragments;
     spec_v_schema := spec_v_schema example_fragments |}.



(** * Properties *)

(** ** The monad *)

Lemma bind_ret_l {A B} (a : A) (f : A -> M B) : bind (ret a) f = f a.
Proof. unfold bind, ret. destruct (f a) as [tr r]. reflexivity. Qed.

Lemma bind_lift_ok {A B} (a : A) (f : A -> M B) : bind (lift (Ok a)) f = f a.
Proof. apply bind_ret_l. Qed.

Lemma bind_lift_raise {A B} (e : exn) (f : A -> M B) :
  bind (lift (Raise e)) f = ([], Raise e).
Proof. reflexivity. Qed.

Lemma bind_ok {A B} (tr : list event) (a : A) (f : A -> M B) :
  bind (tr, Ok a) f = ((tr ++ fst (f a))%list, snd (f a)).
Proof. unfold bind. destruct (f a). reflexivity. Qed.

Lemma bind_raise {A B} (tr : list event) (e : exn) (f : A -> M B) :
  bind (tr, Raise e) f = (tr, Raise e).
Proof. reflexivity. Qed.

Lemma bind_assoc {A B C} (m : M A) (f : A -> M B) (g : B -> M C) :
  bind (bind m f) g = bind m (fun a => bind (f a) g).
Proof.
  destruct m as [tr [a | e]]; [| reflexivity].
  rewrite !bind_ok. destruct (f a) as [tr1 [b | e]]; simpl.
  - destruct (g b) as [tr2 r]. simpl. now rewrite app_assoc.
  - reflexivity.
Qed.



(** ** validate_schema, case by case *)

Section ChunkValidation.

Variable validate : json -> json -> validate_outcome.

Lemma resolve_whole (j_ s_ : json) : resolve j_ s_ "" = Ok (j_, s_).
Proof. reflexivity. Qed.

Lemma resolve_key (j_ s_ : json) (key : string) :
  key <> "" ->
  resolve j_ s_ key =
  match py_get j_ key with
  | Ok my_json_chunk =>
      match py_get s_ key with
      | Ok my_schema => Ok (my_json_chunk, my_schema)
      | Raise e => Raise e
      end
  | Raise e => Raise e
  end.
Proof.
  intros Hkey. unfold resolve.
  destruct (String.eqb_spec key ""); [contradiction | reflexivity].
Qed.

Lemma validate_schema_unresolved j_ s_ key prefix required warn e :
  resolve j_ s_ key = Raise e ->
  validate_schema validate j_ s_ key prefix required warn = ([], Raise e).
Proof. intros H. unfold validate_schema. rewrite H. reflexivity. Qed.

Lemma validate_schema_no_schema j_ s_ key prefix required warn chunk :
  resolve j_ s_ key = Ok (chunk, JNull) ->
  validate_schema validate j_ s_ key prefix required warn
  = ([], Raise AttributeError).
Proof. intros H. unfold validate_schema. rewrite H. reflexivity. Qed.

Lemma validate_schema_no_chunk j_ s_ key prefix required warn chunk_schema :
  resolve j_ s_ key = Ok (JNull, chunk_schema) ->
  is_None chunk_schema = false ->
  validate_schema validate j_ s_ key prefix required warn
  = (if warn then [warning_line prefix key] else [], Ok tt).
Proof.
  intros H Hs. unfold validate_schema. rewrite H, bind_lift_ok.
  cbn [fst snd]. rewrite Hs. cbn [is_None]. now destruct warn.
Qed.

Lemma validate_schema_match j_ s_ key prefix required warn chunk chunk_schema :
  resolve j_ s_ key = Ok (chunk, chunk_schema) ->
  is_None chunk_schema = false ->
  is_None chunk = false ->
  validate_schema validate j_ s_ key prefix required warn
  = ([EvValidate chunk chunk_schema],
     match validate chunk chunk_schema with
     | Valid => Ok tt
     | Invalid e =>
         Raise (SubmittySchemaExn
                  (format_report chunk chunk_schema prefix key e))
     | Raises name => Raise (MatcherError name)
     end).
Proof.
  intros H Hs Hc. unfold validate_schema. rewrite H, bind_lift_ok.
  cbn [fst snd]. rewrite Hs, Hc. unfold call_validate. rewrite bind_ok.
  destruct (validate chunk chunk_schema); reflexivity.
Qed.

(** Every call has one of the four shapes above. *)
Lemma validate_schema_shape j_ s_ key prefix required warn :
  let run := validate_schema validate j_ s_ key prefix required warn in
  (exists e, resolve j_ s_ key = Raise e /\ run = ([], Raise e))
  \/ (exists chunk, resolve j_ s_ key = Ok (chunk, JNull)
                    /\ run = ([], Raise AttributeError))
  \/ (exists chunk_schema,
         resolve j_ s_ key = Ok (JNull, chunk_schema)
         /\ is_None chunk_schema = false
         /\ run = (if warn then [warning_line prefix key] else [], Ok tt))
  \/ (exists chunk chunk_schema,
         resolve j_ s_ key = Ok (chunk, chunk_schema)
         /\ is_None chunk_schema = false /\ is_None chunk = false
         /\ run = ([EvValidate chunk chunk_schema],
                   match validate chunk chunk_schema with
                   | Valid => Ok tt
                   | Invalid e =>
                       Raise (SubmittySchemaExn
                                (format_report chunk chunk_schema prefix key e))
                   | Raises name => Raise (MatcherError name)
                   end)).
Proof.
  intros run. subst run.
  destruct (resolve j_ s_ key) as [[chunk chunk_schema] | e] eqn:R.
  - destruct (is_None chunk_schema) eqn:Hs.
    + right; left. destruct chunk_schema; try discriminate.
      exists chunk. split; [reflexivity |].
      now apply validate_schema_no_schema with (chunk := chunk).
    + destruct (is_None chunk) eqn:Hc.
      * right; right; left. destruct chunk; try discriminate.
        exists chunk_schema. repeat split; trivial.
        eapply validate_schema_no_chunk; eassumption.
      * right; right; right. exists chunk, chunk_schema.
        repeat split; trivial. eapply validate_schema_match; eassumption.
  - left. exists e. split; [reflexivity |].
    now apply validate_schema_unresolved.
Qed.

End ChunkValidation.

(** ** The chunk validator: claims about a single call *)

Lemma schema_defect_general validate j_ s_ key prefix required warn chunk :
  key <> "" ->
  py_get j_ key = Ok chunk ->
  py_get s_ key = Ok JNull ->
  validate_schema validate j_ s_ key prefix required warn
  = ([], Raise AttributeError).
Proof.
  intros Hkey Hj Hs. apply validate_schema_no_schema with (chunk := chunk).
  rewrite resolve_key by assumption. now rewrite Hj, Hs.
Qed.

(** C1, evaluated where the claim fails: [validate_schema] called with the
    key "autograding" on a schema that has no entry for it does fail
    under every [required] and [warn], but what reaches the caller is an
    [AttributeError] from the constructor of the report, not a
    [SubmittySchemaException]; the driver run on a schema whose
    [properties] is empty ends the same way, whatever the configuration
    mapping holds. *)
Theorem schema_defect_raises_AttributeError :
  forall validate required warn,
    validate_schema validate (JObj [("autograding", JObj [])]) (JObj [])
      "autograding" "global" required warn
    = ([], Raise AttributeError)
    /\ forall fields,
        complete_config_validator validate (JObj fields)
          (JObj [("properties", JObj [])]) warn
        = ([], Raise AttributeError).
Proof.
  intros validate required warn. split; [reflexivity |].
  intros fields. unfold complete_config_validator.
  assert (Hp : subscript (JObj [("properties", JObj [])]) "properties"
               = Ok (JObj [])) by reflexivity.
  rewrite Hp, bind_lift_ok.
  unfold global_step, global_keys. cbn [for_each].
  erewrite schema_defect_general
    with (chunk := match lookup "autograding" fields with
                   | Some v => v
                   | None => JNull
                   end).
  - reflexivity.
  - discriminate.
  - cbn [py_get]. now destruct (lookup "autograding" fields).
  - reflexivity.
Qed.

(** C9: the [required] argument of [validate_schema] is never consulted:
    a call with [required=True] has the same trace and the same result as
    the call with [required=False]. *)
Theorem required_is_never_consulted :
  forall validate j_ s_ key prefix warn,
    validate_schema validate j_ s_ key prefix true warn
    = validate_schema validate j_ s_ key prefix false warn.
Proof. reflexivity. Qed.

(** C5 as stated fails: the title of the report is not trimmed.  For a
    whole-chunk check (empty key) under the prefix "testcase_1" the title
    ends in a space. *)
Lemma report_title_is_not_trimmed :
  exists r,
    snd (validate_schema ref_validate (JNum 5) (of_type "string")
           "" "testcase_1" true false)
    = Raise (SubmittySchemaExn r)
    /\ title r = "testcase_1 "
    /\ title r <> strip ("testcase_1" ++ " " ++ "").
Proof.
  eexists. split; [reflexivity |]. split; [reflexivity |].
  vm_compute. discriminate.
Qed.

(** C5, amended: when the matcher rejects the resolved pair, the call
    makes that one matcher call and raises a report holding exactly the
    resolved document chunk and schema chunk, the summary
    "ERROR: <title> was not properly formatted", the title
    [prefix ++ " " ++ key] as it is (not trimmed), and the matcher's
    message. *)
Theorem report_carries_resolved_chunks :
  forall validate j_ s_ key prefix required warn chunk chunk_schema e,
    resolve j_ s_ key = Ok (chunk, chunk_schema) ->
    chunk_schema <> JNull ->
    chunk <> JNull ->
    validate chunk chunk_schema = Invalid e ->
    validate_schema validate j_ s_ key prefix required warn
    = ([EvValidate chunk chunk_schema],
       Raise (SubmittySchemaExn
                {| config_json := chunk;
                   schema := chunk_schema;
                   my_message :=
                     MsgStr ("ERROR: " ++ (prefix ++ " " ++ key)
                               ++ " was not properly formatted");
                   title := prefix ++ " " ++ key;
                   schema_message := message e |})).
Proof.
  intros validate j_ s_ key prefix required warn chunk chunk_schema e
    R Hs Hc Hv.
  rewrite validate_schema_match
    with (chunk := chunk) (chunk_schema := chunk_schema).
  - now rewrite Hv.
  - exact R.
  - destruct chunk_schema; trivial; contradiction.
  - destruct chunk; trivial; contradiction.
Qed.

Lemma report_carries_resolved_chunks_witness :
  validate_schema ref_validate
    (JObj [("points", JStr "ten")]) (JObj [("points", of_type "integer")])
    "points" "testcase_1" true false
  = ([EvValidate (JStr "ten") (of_type "integer")],
     Raise (SubmittySchemaExn
              {| config_json := JStr "ten";
                 schema := of_type "integer";
                 my_message :=
                   MsgStr "ERROR: testcase_1 points was not properly formatted";
                 title := "testcase_1 points";
                 schema_message := Some "instance is not of type 'integer'" |})).
Proof.
  apply (report_carries_resolved_chunks ref_validate
           (JObj [("points", JStr "ten")])
           (JObj [("points", of_type "integer")])
           "points" "testcase_1" true false
           (JStr "ten") (of_type "integer")
           {| message := Some "instance is not of type 'integer'" |}).
  - reflexivity.
  - discriminate.
  - discriminate.
  - reflexivity.
Defined.

(** C6 as stated fails: a report without a matcher message is rendered as
    a blank line and the summary line only; the dump of the chunk is not
    printed. *)
Lemma render_without_detail_has_no_dump :
  fst (print_human_readable_error ref_dumps ref_str_of_tuple
         report_without_detail)
  = [EvPrint Stderr "";
     EvPrint Stderr "ERROR: testcase_1 points was not properly formatted:"]
  /\ ~ In (EvPrint Stderr (ref_dumps (config_json report_without_detail)))
          (fst (print_human_readable_error ref_dumps ref_str_of_tuple
                  report_without_detail)).
Proof.
  split; [reflexivity |].
  cbn. intros [H | [H | []]]; discriminate H.
Qed.

(** C6, amended: rendering always succeeds and prints, to the error
    stream only, an empty line and the summary followed by a colon; when
    the report has a matcher message it goes on with that message, a
    heading line and the dump of the chunk, and when it has none nothing
    more is printed. *)
Theorem render_prints_to_stderr :
  forall json_dumps str_of_tuple r,
    print_human_readable_error json_dumps str_of_tuple r
    = ([EvPrint Stderr "";
        EvPrint Stderr (str_of_message str_of_tuple (my_message r) ++ ":")]
         ++ match schema_message r with
            | Some detail =>
                [EvPrint Stderr detail;
                 EvPrint Stderr
                   "The portion of your configuration that caused the error is:";
                 EvPrint Stderr (json_dumps (config_json r))]
            | None => []
            end,
       Ok tt)%list
    /\ Forall on_stderr
         (fst (print_human_readable_error json_dumps str_of_tuple r)).
Proof.
  intros json_dumps str_of_tuple r.
  assert (E : print_human_readable_error json_dumps str_of_tuple r
              = ([EvPrint Stderr "";
                  EvPrint Stderr
                    (str_of_message str_of_tuple (my_message r) ++ ":")]
                   ++ match schema_message r with
                      | Some detail =>
                          [EvPrint Stderr detail;
                           EvPrint Stderr
                             "The portion of your configuration that caused the error is:";
                           EvPrint Stderr (json_dumps (config_json r))]
                      | None => []
                      end,
                 Ok tt)%list).
  { unfold print_human_readable_error.
    destruct (schema_message r); reflexivity. }
  split; [exact E |].
  rewrite E. cbn [fst].
  destruct (schema_message r); repeat constructor.
Qed.

(** ** The warn flag *)

Lemma bind_ext {A B} (m : M A) (f g : A -> M B) :
  (forall a, f a = g a) -> bind m f = bind m g.
Proof.
  intros H. destruct m as [tr [a | e]]; [| reflexivity].
  rewrite !bind_ok, H. reflexivity.
Qed.

Lemma bind_inv_ok {A B} (m : M A) (f : A -> M B) tr b :
  bind m f = (tr, Ok b) ->
  exists tr1 a tr2,
    m = (tr1, Ok a) /\ f a = (tr2, Ok b) /\ tr = (tr1 ++ tr2)%list.
Proof.
  destruct m as [tr1 [a | e]]; [| discriminate].
  rewrite bind_ok. destruct (f a) as [tr2 r] eqn:E. cbn [fst snd].
  intros H. inversion H; subst. now exists tr1, a, tr2.
Qed.








Section Warn.

Variable validate : json -> json -> validate_outcome.








End Warn.


(** ** The kind disambiguator *)

Lemma validate_schema_null_entry validate extra_schema warn :
  extra_schema <> JNull ->
  validate_schema validate JNull extra_schema "" "" false warn
  = (if warn then [warning_line "" ""] else [], Ok tt).
Proof.
  intros H. apply validate_schema_no_chunk with (chunk_schema := extra_schema).
  - reflexivity.
  - destruct extra_schema; trivial; contradiction.
Qed.

(** C10 as stated fails: the schema fragment is looked at before the
    entry (line 124 comes before line 132), so with a null filecheck
    fragment the second attempt on a null entry does not succeed; the
    disambiguator raises after the warning of the first attempt, and the
    entry is not skipped. *)
Lemma null_testcase_with_null_fragment_raises :
  kind_disambiguator ref_validate JNull fragments_without_filecheck true 1
  = ([warning_line "" ""], Raise AttributeError)
  /\ forall n,
      snd (testcase_body ref_validate fragments_without_filecheck true
             JNull 1)
      <> Ok n.
Proof. split; [reflexivity | discriminate]. Qed.

(** C10, amended: when the schema has both extra fragments (neither is
    null), a testcase entry that is null passes both attempts of the kind
    disambiguator: no matcher call is made for it (with [warn] each
    attempt prints its warning, nothing else happens), the entry is
    skipped, and the testcase index advances by two. *)
Theorem null_testcase_is_skipped :
  forall validate fr (warn : bool) n,
    sub_limit_schema fr <> JNull ->
    filecheck_schema fr <> JNull ->
    let warnings :=
      if warn then [warning_line "" ""; warning_line "" ""] else [] in
    kind_disambiguator validate JNull fr warn n = (warnings, Ok (n + 2, true))
    /\ testcase_body validate fr warn JNull n = (warnings, Ok (n + 2))
    /\ filter is_validate warnings = []
    /\ forall rest,
        testcase_loop validate fr warn (JNull :: rest) n
        = (((warnings, Ok tt) : M unit) ;;;
           testcase_loop validate fr warn rest (n + 2)).
Proof.
  intros validate fr warn n Hsl Hfc warnings.
  replace (n + 2) with (S (S n)) by lia.
  assert (K : kind_disambiguator validate JNull fr warn n
              = (warnings, Ok (S (S n), true))).
  { unfold kind_disambiguator. cbn [for_state].
    rewrite !validate_schema_null_entry by assumption.
    subst warnings. now destruct warn. }
  assert (B : testcase_body validate fr warn JNull n
              = (warnings, Ok (S (S n)))).
  { unfold testcase_body. rewrite K, bind_ok. cbn [fst snd ret].
    now rewrite app_nil_r. }
  repeat split; trivial.
  - subst warnings. now destruct warn.
  - intros rest. unfold testcase_loop. cbn [for_state].
    rewrite B, !bind_ok. reflexivity.
Qed.

Lemma null_testcase_is_skipped_witness :
  kind_disambiguator ref_validate JNull example_fragments true 1
  = ([warning_line "" ""; warning_line "" ""], Ok (3, true)).
Proof.
  apply (null_testcase_is_skipped ref_validate example_fragments true 1).
  - discriminate.
  - discriminate.
Defined.

(** C3, evaluated where the claim fails.  The loop over the two extra
    schemas has no [break]: an entry accepted by the submission_limit
    schema is still handed to the matcher with the filecheck schema; when
    that attempt succeeds too the index goes from 1 to 3, and the regular
    testcase that follows is reported as testcase_3. *)
Theorem filecheck_attempt_follows_a_submission_limit_match :
  kind_disambiguator ref_validate sub_limit_entry example_fragments false 1
  = ([EvValidate sub_limit_entry (requiring "max_submissions");
      EvValidate sub_limit_entry (requiring "actual_file")],
     Ok (2, true))
  /\ kind_disambiguator ref_validate both_kinds_entry example_fragments false 1
     = ([EvValidate both_kinds_entry (requiring "max_submissions");
         EvValidate both_kinds_entry (requiring "actual_file")],
        Ok (3, true))
  /\ exists r,
      snd (complete_config_validator ref_validate
             (JObj [("testcases",
                     JArr [both_kinds_entry; example_testcase (JStr "ten")])])
             example_schema false)
      = Raise (SubmittySchemaExn r)
      /\ title r = "testcase_3 points".
Proof.
  split; [reflexivity |]. split; [reflexivity |].
  eexists. split; reflexivity.
Qed.

(** ** Absent keys *)

Lemma missing_testcases_raises_KeyError validate fields s_ s_prop warn tr :
  subscript s_ "properties" = Ok s_prop ->
  global_step validate (JObj fields) s_prop warn = (tr, Ok tt) ->
  lookup "testcases" fields = None ->
  complete_config_validator validate (JObj fields) s_ warn
  = (tr, Raise (KeyError "testcases")).
Proof.
  intros Hp Hg Hl. unfold complete_config_validator.
  rewrite Hp, bind_lift_ok, Hg, bind_ok. cbn [subscript]. rewrite Hl.
  rewrite bind_lift_raise. cbn [fst snd]. now rewrite app_nil_r.
Qed.

Lemma missing_containers_raises_KeyError validate fields fr warn n tr :
  for_each testcase_keys
    (fun key => validate_schema validate (JObj fields) (p_s fr) key
                  ("testcase_" ++ str_of_nat n) true warn) = (tr, Ok tt) ->
  lookup "containers" fields = None ->
  regular_testcase validate (JObj fields) fr warn n
  = (tr, Raise (KeyError "containers")).
Proof.
  intros Hk Hl. unfold regular_testcase.
  rewrite Hk, bind_ok. cbn [subscript]. rewrite Hl.
  rewrite bind_lift_raise. cbn [fst snd]. now rewrite app_nil_r.
Qed.

(** C2 as stated fails: a configuration without the key "testcases" makes
    the driver raise [KeyError], with [warn] off and with [warn] on. *)
Lemma absent_testcases_key_raises :
  subscript config_without_testcases "testcases" = Raise (KeyError "testcases")
  /\ snd (complete_config_validator ref_validate config_without_testcases
            example_schema false)
     = Raise (KeyError "testcases")
  /\ snd (complete_config_validator ref_validate config_without_testcases
            example_schema true)
     = Raise (KeyError "testcases").
Proof. repeat split. Qed.

Lemma lift_inv_ok {A} (res : result A) tr a :
  lift res = (tr, Ok a) -> res = Ok a.
Proof. unfold lift. congruence. Qed.

Lemma subscript_inv_ok fields key v :
  subscript (JObj fields) key = Ok v -> lookup key fields <> None.
Proof. cbn. destruct (lookup key fields); congruence. Qed.

(** A run on a configuration mapping without "testcases" does not pass. *)
Lemma missing_testcases_never_passes validate fields s_ warn :
  lookup "testcases" fields = None ->
  snd (complete_config_validator validate (JObj fields) s_ warn) <> Ok tt.
Proof.
  intros Hl H.
  destruct (complete_config_validator validate (JObj fields) s_ warn)
    as [tr res] eqn:E.
  cbn [snd] in H. subst res. unfold complete_config_validator in E.
  apply bind_inv_ok in E as (? & s_prop & ? & _ & E & _).
  apply bind_inv_ok in E as (? & [] & ? & _ & E & _).
  apply bind_inv_ok in E as (? & testcases & ? & Hj & _ & _).
  apply lift_inv_ok, subscript_inv_ok in Hj. contradiction.
Qed.

(** A regular testcase mapping without "containers", "solution_containers"
    or "validation" does not pass. *)
Lemma missing_list_never_passes validate fields fr warn n key :
  In key ["containers"; "solution_containers"; "validation"] ->
  lookup key fields = None ->
  forall n', snd (regular_testcase validate (JObj fields) fr warn n) <> Ok n'.
Proof.
  intros Hin Hl n' H.
  destruct (regular_testcase validate (JObj fields) fr warn n)
    as [tr res] eqn:E.
  cbn [snd] in H. subst res. unfold regular_testcase in E.
  apply bind_inv_ok in E as (? & [] & ? & _ & E & _).
  apply bind_inv_ok in E as (? & containers & ? & Hc & E & _).
  apply bind_inv_ok in E as (? & cs & ? & _ & E & _).
  apply bind_inv_ok in E as (? & [] & ? & _ & E & _).
  apply bind_inv_ok in E as (? & solution_containers & ? & Hs & E & _).
  apply bind_inv_ok in E as (? & scs & ? & _ & E & _).
  apply bind_inv_ok in E as (? & [] & ? & _ & E & _).
  apply bind_inv_ok in E as (? & validators & ? & Hv & _ & _).
  apply lift_inv_ok, subscript_inv_ok in Hc, Hs, Hv.
  destruct Hin as [<- | [<- | [<- | []]]]; contradiction.
Qed.

(** C2, amended: for a key that is checked through [validate_schema] (the
    four global keys and the thirteen keys of a regular testcase), a
    document mapping that lacks the key, checked against a schema that
    specifies it, passes: the call returns without calling the matcher,
    printing nothing when [warn] is off and one warning line when it is
    on.  The keys read by subscript are not optional: a configuration
    mapping without "testcases" does not pass, and neither does a regular
    testcase mapping without "containers", "solution_containers" or
    "validation". *)
Theorem absent_key_is_not_a_failure :
  forall validate (warn : bool),
    (forall j_ s_ key prefix required chunk_schema,
        key <> "" ->
        py_get j_ key = Ok JNull ->
        py_get s_ key = Ok chunk_schema ->
        chunk_schema <> JNull ->
        validate_schema validate j_ s_ key prefix required warn
        = (if warn
           then [EvPrint Stdout
                   ("WARNING: could not identify " ++ (prefix ++ " " ++ key)
                      ++ " (" ++ key ++ ")")]
           else [],
           Ok tt))
    /\ (forall fields s_,
           lookup "testcases" fields = None ->
           snd (complete_config_validator validate (JObj fields) s_ warn)
           <> Ok tt)
    /\ (forall fields fr n key n',
           In key ["containers"; "solution_containers"; "validation"] ->
           lookup key fields = None ->
           snd (regular_testcase validate (JObj fields) fr warn n) <> Ok n').
Proof.
  intros validate warn. split; [| split].
  - intros j_ s_ key prefix required chunk_schema Hk Hj Hs Hn.
    apply validate_schema_no_chunk with (chunk_schema := chunk_schema).
    + rewrite resolve_key by assumption. now rewrite Hj, Hs.
    + destruct chunk_schema; trivial; contradiction.
  - intros fields s_. apply missing_testcases_never_passes.
  - intros fields fr n key n' Hin Hl.
    now apply missing_list_never_passes with (key := key).
Qed.

Lemma absent_key_is_not_a_failure_witness :
  validate_schema ref_validate config_without_autograding
    (JObj [("autograding", of_type "object")]) "autograding" "global"
    true true
  = ([EvPrint Stdout
        "WARNING: could not identify global autograding (autograding)"],
     Ok tt).
Proof.
  apply (proj1 (absent_key_is_not_a_failure ref_validate true)
           config_without_autograding
           (JObj [("autograding", of_type "object")]) "autograding" "global"
           true (of_type "object")).
  - discriminate.
  - reflexivity.
  - reflexivity.
  - discriminate.
Defined.

(** ** The whole-document step *)

Section WholeDocument.

Variable validate : json -> json -> validate_outcome.

Lemma complete_is_piecewise_then_whole j_ s_ warn :
  complete_config_validator validate j_ s_ warn
  = (piecewise_checks validate j_ s_ warn ;;;
     whole_document_step validate j_ s_ warn).
Proof.
  unfold complete_config_validator, piecewise_checks, whole_document_step.
  repeat (rewrite bind_assoc; apply bind_ext; intros ?).
  now rewrite bind_ret_l.
Qed.

Lemma piecewise_ok_needs_mappings j_ s_ warn tr :
  piecewise_checks validate j_ s_ warn = (tr, Ok tt) ->
  is_None j_ = false /\ is_None s_ = false.
Proof.
  unfold piecewise_checks. intros H.
  apply bind_inv_ok in H as (tr1 & s_prop & tr2 & Hs & H & _).
  apply bind_inv_ok in H as (tr3 & [] & tr4 & _ & H & _).
  apply bind_inv_ok in H as (tr5 & testcases & tr6 & Hj & _ & _).
  split.
  - destruct j_; try reflexivity; discriminate Hj.
  - destruct s_; try reflexivity; discriminate Hs.
Qed.

End WholeDocument.

(** C4 as stated fails: when a piecewise check raises, the run stops
    there and the whole document is never handed to the matcher. *)
Lemma whole_document_step_skipped_after_a_violation :
  (exists r,
      snd (complete_config_validator ref_validate config_with_two_violations
             example_schema false)
      = Raise (SubmittySchemaExn r)
      /\ config_json r = JNum 5)
  /\ ~ In (EvValidate config_with_two_violations example_schema)
          (fst (complete_config_validator ref_validate
                  config_with_two_violations example_schema false)).
Proof.
  split.
  - eexists. split; reflexivity.
  - cbn. intros [H | [H | []]]; discriminate H.
Qed.

(** C4, amended: the whole-document validation is the last step of a run
    whose piecewise checks all passed.  In that case the run ends with the
    matcher call on the entire configuration and the entire schema, and a
    rejection there raises a report holding both documents under the
    title "Your config json "; when a piecewise check raises, the run
    ends with that exception and the whole-document step is not reached. *)
Theorem whole_document_step_runs_last :
  forall validate j_ s_ warn,
    (forall tr,
        piecewise_checks validate j_ s_ warn = (tr, Ok tt) ->
        complete_config_validator validate j_ s_ warn
        = ((tr ++ [EvValidate j_ s_])%list,
           match validate j_ s_ with
           | Valid => Ok tt
           | Invalid e =>
               Raise (SubmittySchemaExn
                        {| config_json := j_;
                           schema := s_;
                           my_message :=
                             MsgStr "ERROR: Your config json  was not properly formatted";
                           title := "Your config json ";
                           schema_message := message e |})
           | Raises name => Raise (MatcherError name)
           end))
    /\ (forall tr e,
           piecewise_checks validate j_ s_ warn = (tr, Raise e) ->
           complete_config_validator validate j_ s_ warn = (tr, Raise e)).
Proof.
  intros validate j_ s_ warn. split.
  - intros tr H. rewrite complete_is_piecewise_then_whole, H, bind_ok.
    destruct (piecewise_ok_needs_mappings validate j_ s_ warn tr H)
      as [Hj Hs].
    unfold whole_document_step.
    rewrite validate_schema_match with (chunk := j_) (chunk_schema := s_)
      by (reflexivity || assumption).
    cbn [fst snd]. destruct (validate j_ s_); reflexivity.
  - intros tr e H. now rewrite complete_is_piecewise_then_whole, H.
Qed.

Lemma whole_document_step_runs_last_witness :
  snd (complete_config_validator ref_validate config_without_autograding
         example_schema false)
  = Raise (SubmittySchemaExn
             {| config_json := config_without_autograding;
                schema := example_schema;
                my_message :=
                  MsgStr "ERROR: Your config json  was not properly formatted";
                title := "Your config json ";
                schema_message := Some "'autograding' is a required property" |}).
Proof.
  rewrite (proj1 (whole_document_step_runs_last ref_validate
                    config_without_autograding example_schema false)
             (fst (piecewise_checks ref_validate config_without_autograding
                     example_schema false))).
  - reflexivity.
  - reflexivity.
Defined.

(** ** Fail-fast *)

Section FailFast.

Variable validate : json -> json -> validate_outcome.








Lemma no_report_subscript obj key : no_report (subscript obj key).
Proof.
  destruct obj; cbn; trivial. now destruct (lookup key fields).
Qed.

Lemma no_report_py_iter obj : no_report (py_iter obj).
Proof. destruct obj; cbn; trivial. Qed.

Lemma no_report_definition s_ name : no_report (definition s_ name).
Proof.
  unfold definition.
  pose proof (no_report_subscript s_ "definitions") as H.
  destruct (subscript s_ "definitions"); [apply no_report_subscript | exact H].
Qed.








End FailFast.

(** ** The concrete scenario of the specification *)

Example valid_configuration_passes :
  snd (complete_config_validator ref_validate example_config example_schema
         true)
  = Ok tt.
Proof. reflexivity. Qed.

Example disallowed_type_is_reported :
  snd (complete_config_validator ref_validate
         (JObj [("autograding", JObj []);
                ("testcases",
                 JArr [JObj [("type", JNum 7);
                             ("containers", JArr []);
                             ("solution_containers", JArr []);
                             ("validation", JArr [])]])])
         example_schema false)
  = Raise (SubmittySchemaExn
             {| config_json := JNum 7;
                schema := of_type "string";
                my_message :=
                  MsgStr "ERROR: testcase_1 type was not properly formatted";
                title := "testcase_1 type";
                schema_message := Some "instance is not of type 'string'" |}).
Proof. reflexivity. Qed.

(** * Further properties of the validator *)

(** ** Inverting runs that return *)

Lemma validate_schema_ok_inv validate j_ s_ key prefix required warn tr :
  validate_schema validate j_ s_ key prefix required warn = (tr, Ok tt) ->
  exists chunk chunk_schema,
    resolve j_ s_ key = Ok (chunk, chunk_schema)
    /\ chunk_schema <> JNull
    /\ (chunk = JNull
        \/ (chunk <> JNull
            /\ validate chunk chunk_schema = Valid
            /\ tr = [EvValidate chunk chunk_schema])).
Proof.
  intros H.
  destruct (validate_schema_shape validate j_ s_ key prefix required warn)
    as [(e & R & E) | [(c & R & E) | [(cs & R & Hs & E) | (c & cs & R & Hs & Hc & E)]]];
    rewrite E in H.
  - discriminate.
  - discriminate.
  - exists JNull, cs. repeat split; auto.
    intros ->. discriminate.
  - exists c, cs. split; [exact R |]. split; [intros ->; discriminate |].
    right. split; [intros ->; discriminate |].
    destruct (validate c cs); inversion H. now split.
Qed.

Lemma for_each_ok_inv {A} (l : list A) (body : A -> M unit) tr :
  for_each l body = (tr, Ok tt) ->
  forall x, In x l -> exists tr', body x = (tr', Ok tt).
Proof.
  revert tr. induction l as [| y l IH]; intros tr H x Hin.
  - destruct Hin.
  - cbn [for_each] in H.
    apply bind_inv_ok in H as (tr1 & [] & tr2 & Hy & Hl & _).
    destruct Hin as [<- | Hin]; [now exists tr1 | now apply (IH tr2)].
Qed.

Lemma for_state_ok_inv {A S} (l : list A) (body : A -> S -> M S) s tr s' :
  for_state l body s = (tr, Ok s') ->
  forall x, In x l -> exists s1 tr' s2, body x s1 = (tr', Ok s2).
Proof.
  revert s tr. induction l as [| y l IH]; intros s tr H x Hin.
  - destruct Hin.
  - cbn [for_state] in H.
    apply bind_inv_ok in H as (tr1 & s1 & tr2 & Hy & Hl & _).
    destruct Hin as [<- | Hin]; [now exists s, tr1, s1 | now apply (IH s1 tr2)].
Qed.

(** ** The kind disambiguator, in general *)

Section Disambiguation.

Variable validate : json -> json -> validate_outcome.

(** One turn of the loop of lines 66-72 on an entry that is there. *)
Lemma attempt_shape t extra_schema warn (st : nat * bool) :
  is_None t = false ->
  is_None extra_schema = false ->
  try_except
    (validate_schema validate t extra_schema "" "" false warn ;;;
     ret (S (fst st), true))
    (ret st)
  = ([EvValidate t extra_schema],
     match validate t extra_schema with
     | Valid => Ok (S (fst st), true)
     | Invalid _ => Ok st
     | Raises name => Raise (MatcherError name)
     end).
Proof.
  intros Ht Hs.
  rewrite validate_schema_match with (chunk := t) (chunk_schema := extra_schema)
    by (reflexivity || assumption).
  destruct (validate t extra_schema); reflexivity.
Qed.

Lemma attempt_without_schema t warn (st : nat * bool) :
  try_except
    (validate_schema validate t JNull "" "" false warn ;;;
     ret (S (fst st), true))
    (ret st)
  = ([], Raise AttributeError).
Proof.
  now rewrite validate_schema_no_schema with (chunk := t).
Qed.

Lemma attempt_ok_inv t extra_schema warn (st st' : nat * bool) tr :
  try_except
    (validate_schema validate t extra_schema "" "" false warn ;;;
     ret (S (fst st), true))
    (ret st)
  = (tr, Ok st') ->
  st' = st
  \/ (st' = (S (fst st), true)
      /\ exists tr',
          validate_schema validate t extra_schema "" "" false warn
          = (tr', Ok tt)).
Proof.
  destruct (validate_schema validate t extra_schema "" "" false warn)
    as [tr0 [[] | e]] eqn:E.
  - rewrite bind_ok. cbn. intros H. inversion H. right. split; eauto.
  - rewrite bind_raise. destruct e; cbn; intros H; inversion H. now left.
Qed.

Lemma regular_testcase_non_mapping t fr warn n :
  is_scalar_or_array t = true ->
  regular_testcase validate t fr warn n = ([], Raise AttributeError).
Proof.
  intros Ht. unfold regular_testcase, testcase_keys. cbn [for_each].
  rewrite validate_schema_unresolved with (e := AttributeError).
  - reflexivity.
  - rewrite resolve_key by discriminate.
    destruct t; try discriminate Ht; reflexivity.
Qed.

End Disambiguation.

(** X1: on an entry that is not null, with both extra schemas present
    and a matcher that answers, the kind disambiguator always makes both
    matcher calls, never raises, advances the index once for each schema
    that accepts the entry, and reports success when at least one does. *)
Theorem kind_disambiguator_counts_accepting_schemas :
  forall validate t fr warn n,
    t <> JNull ->
    sub_limit_schema fr <> JNull ->
    filecheck_schema fr <> JNull ->
    matcher_answers validate t (sub_limit_schema fr) ->
    matcher_answers validate t (filecheck_schema fr) ->
    kind_disambiguator validate t fr warn n
    = ([EvValidate t (sub_limit_schema fr);
        EvValidate t (filecheck_schema fr)],
       Ok (n + Nat.b2n (accepts validate t (sub_limit_schema fr))
             + Nat.b2n (accepts validate t (filecheck_schema fr)),
           (accepts validate t (sub_limit_schema fr)
            || accepts validate t (filecheck_schema fr))%bool)).
Proof.
  intros validate t fr warn n Ht Hsl Hfc A1 A2.
  unfold kind_disambiguator. cbn [for_state].
  assert (is_None t = false) by (destruct t; trivial; contradiction).
  assert (is_None (sub_limit_schema fr) = false)
    by (destruct (sub_limit_schema fr); trivial; contradiction).
  assert (is_None (filecheck_schema fr) = false)
    by (destruct (filecheck_schema fr); trivial; contradiction).
  rewrite attempt_shape by assumption. unfold accepts.
  destruct (validate t (sub_limit_schema fr)) as [| e1 | name1] eqn:V1;
    [| | destruct (A1 name1 V1)];
    rewrite bind_ok, attempt_shape by assumption;
    (destruct (validate t (filecheck_schema fr)) as [| e2 | name2] eqn:V2;
     [| | destruct (A2 name2 V2)]);
    cbn; repeat f_equal; lia.
Qed.

Lemma kind_disambiguator_counts_accepting_schemas_witness :
  kind_disambiguator ref_validate both_kinds_entry example_fragments true 4
  = ([EvValidate both_kinds_entry (requiring "max_submissions");
      EvValidate both_kinds_entry (requiring "actual_file")],
     Ok (6, true)).
Proof.
  apply (kind_disambiguator_counts_accepting_schemas ref_validate
           both_kinds_entry example_fragments true 4).
  - discriminate.
  - discriminate.
  - discriminate.
  - intros name. discriminate.
  - intros name. discriminate.
Defined.

(** X2: what follows the disambiguator.  Under the same assumptions, an
    entry accepted by at least one extra schema gets nothing but the two
    matcher calls of the disambiguator, and an entry rejected by both is
    handled as a regular testcase under the unchanged index, the two
    rejections leaving no other mark. *)
Theorem testcase_body_after_disambiguation :
  forall validate t fr warn n,
    t <> JNull ->
    sub_limit_schema fr <> JNull ->
    filecheck_schema fr <> JNull ->
    matcher_answers validate t (sub_limit_schema fr) ->
    matcher_answers validate t (filecheck_schema fr) ->
    let attempts : M unit :=
      ([EvValidate t (sub_limit_schema fr);
        EvValidate t (filecheck_schema fr)], Ok tt) in
    testcase_body validate fr warn t n
    = if (accepts validate t (sub_limit_schema fr)
          || accepts validate t (filecheck_schema fr))%bool
      then attempts ;;;
           ret (n + Nat.b2n (accepts validate t (sub_limit_schema fr))
                  + Nat.b2n (accepts validate t (filecheck_schema fr)))
      else attempts ;;; regular_testcase validate t fr warn n.
Proof.
  intros validate t fr warn n Ht Hsl Hfc A1 A2 attempts.
  unfold testcase_body, kind_disambiguator. cbn [for_state].
  assert (is_None t = false) by (destruct t; trivial; contradiction).
  assert (is_None (sub_limit_schema fr) = false)
    by (destruct (sub_limit_schema fr); trivial; contradiction).
  assert (is_None (filecheck_schema fr) = false)
    by (destruct (filecheck_schema fr); trivial; contradiction).
  rewrite attempt_shape by assumption. unfold accepts, attempts.
  destruct (validate t (sub_limit_schema fr)) as [| e1 | name1] eqn:V1;
    [| | destruct (A1 name1 V1)];
    rewrite bind_ok, attempt_shape by assumption;
    (destruct (validate t (filecheck_schema fr)) as [| e2 | name2] eqn:V2;
     [| | destruct (A2 name2 V2)]);
    cbn [fst snd orb Nat.b2n]; rewrite !bind_ok; cbn [fst snd ret app];
    rewrite ?bind_ok; cbn [fst snd ret app]; rewrite ?app_nil_r;
    try reflexivity; repeat f_equal; lia.
Qed.

Lemma testcase_body_after_disambiguation_witness :
  testcase_body ref_validate example_fragments false sub_limit_entry 1
  = ([EvValidate sub_limit_entry (requiring "max_submissions");
      EvValidate sub_limit_entry (requiring "actual_file")],
     Ok 2).
Proof.
  rewrite (testcase_body_after_disambiguation ref_validate sub_limit_entry
             example_fragments false 1).
  - reflexivity.
  - discriminate.
  - discriminate.
  - discriminate.
  - intros name. discriminate.
  - intros name. discriminate.
Defined.

(** X3: what the [except] clause of the disambiguator does not catch.
    A missing submission_limit fragment makes it raise [AttributeError]
    for every entry before anything is checked; with a missing filecheck
    fragment it never returns, and raises [AttributeError] right after
    the submission_limit attempt on an entry that is there; and an error
    of the matcher other than a rejection, in the first attempt or in
    the second, ends it at that call with that error. *)
Theorem errors_escape_the_disambiguator :
  forall validate t fr warn n,
    (sub_limit_schema fr = JNull ->
     kind_disambiguator validate t fr warn n = ([], Raise AttributeError))
    /\ (filecheck_schema fr = JNull ->
        forall st, snd (kind_disambiguator validate t fr warn n) <> Ok st)
    /\ (forall name,
           t <> JNull ->
           sub_limit_schema fr <> JNull ->
           validate t (sub_limit_schema fr) = Raises name ->
           kind_disambiguator validate t fr warn n
           = ([EvValidate t (sub_limit_schema fr)],
              Raise (MatcherError name)))
    /\ (forall name,
           t <> JNull ->
           sub_limit_schema fr <> JNull ->
           filecheck_schema fr <> JNull ->
           matcher_answers validate t (sub_limit_schema fr) ->
           validate t (filecheck_schema fr) = Raises name ->
           kind_disambiguator validate t fr warn n
           = ([EvValidate t (sub_limit_schema fr);
               EvValidate t (filecheck_schema fr)],
              Raise (MatcherError name)))
    /\ (t <> JNull ->
        sub_limit_schema fr <> JNull ->
        filecheck_schema fr = JNull ->
        matcher_answers validate t (sub_limit_schema fr) ->
        kind_disambiguator validate t fr warn n
        = ([EvValidate t (sub_limit_schema fr)], Raise AttributeError)).
Proof.
  intros validate t fr warn n. unfold kind_disambiguator. cbn [for_state].
  split; [| split; [| split; [| split]]].
  - intros ->. now rewrite attempt_without_schema.
  - intros -> st.
    match goal with
    | |- context [bind ?m _] => destruct m as [tr [st1 | e]]
    end.
    + rewrite bind_ok, attempt_without_schema. discriminate.
    + discriminate.
  - intros name Ht Hsl V.
    rewrite attempt_shape, V.
    + reflexivity.
    + destruct t; trivial; contradiction.
    + destruct (sub_limit_schema fr); trivial; contradiction.
  - intros name Ht Hsl Hfc A1 V.
    assert (is_None t = false) by (destruct t; trivial; contradiction).
    assert (is_None (sub_limit_schema fr) = false)
      by (destruct (sub_limit_schema fr); trivial; contradiction).
    assert (is_None (filecheck_schema fr) = false)
      by (destruct (filecheck_schema fr); trivial; contradiction).
    rewrite attempt_shape by assumption.
    destruct (validate t (sub_limit_schema fr)) as [| e1 | name1] eqn:V1;
      [| | destruct (A1 name1 V1)];
      rewrite bind_ok, attempt_shape, V by assumption; reflexivity.
  - intros Ht Hsl Hfc A1.
    assert (is_None t = false) by (destruct t; trivial; contradiction).
    assert (is_None (sub_limit_schema fr) = false)
      by (destruct (sub_limit_schema fr); trivial; contradiction).
    rewrite attempt_shape by assumption. rewrite Hfc.
    destruct (validate t (sub_limit_schema fr)) as [| e1 | name1] eqn:V1;
      [| | destruct (A1 name1 V1)];
      rewrite bind_ok, attempt_without_schema; reflexivity.
Qed.

Lemma errors_escape_the_disambiguator_witness :
  kind_disambiguator ref_validate sub_limit_entry
    {| t_s := JObj []; p_s := JObj []; sub_limit_schema := JNull;
       filecheck_schema := JObj []; c_schema := JObj [];
       abs_v_schema := JObj []; spec_v_schema := JObj [] |} true 1
  = ([], Raise AttributeError).
Proof.
  apply (proj1 (errors_escape_the_disambiguator ref_validate sub_limit_entry
                  {| t_s := JObj []; p_s := JObj []; sub_limit_schema := JNull;
                     filecheck_schema := JObj []; c_schema := JObj [];
                     abs_v_schema := JObj []; spec_v_schema := JObj [] |}
                  true 1)).
  reflexivity.
Defined.

(** X4: a testcase entry that is a string, a number, a boolean or a
    list, and that both extra schemas reject, is not reported as a
    violation: the first per-key check calls [.get] on it and the turn
    ends with [AttributeError] after the two matcher calls of the
    disambiguator. *)
Theorem non_mapping_entry_raises_AttributeError :
  forall validate t fr warn n e1 e2,
    is_scalar_or_array t = true ->
    sub_limit_schema fr <> JNull ->
    filecheck_schema fr <> JNull ->
    validate t (sub_limit_schema fr) = Invalid e1 ->
    validate t (filecheck_schema fr) = Invalid e2 ->
    testcase_body validate fr warn t n
    = ([EvValidate t (sub_limit_schema fr);
        EvValidate t (filecheck_schema fr)],
       Raise AttributeError).
Proof.
  intros validate t fr warn n e1 e2 Ht Hsl Hfc V1 V2.
  unfold testcase_body, kind_disambiguator. cbn [for_state].
  assert (is_None t = false) by (destruct t; trivial; discriminate).
  assert (is_None (sub_limit_schema fr) = false)
    by (destruct (sub_limit_schema fr); trivial; contradiction).
  assert (is_None (filecheck_schema fr) = false)
    by (destruct (filecheck_schema fr); trivial; contradiction).
  rewrite attempt_shape, V1, bind_ok, attempt_shape, V2 by assumption.
  repeat (rewrite bind_ok; cbn [fst snd ret app]).
  now rewrite regular_testcase_non_mapping.
Qed.

Lemma non_mapping_entry_raises_AttributeError_witness :
  testcase_body ref_validate example_fragments false (JStr "Compilation") 1
  = ([EvValidate (JStr "Compilation") (requiring "max_submissions");
      EvValidate (JStr "Compilation") (requiring "actual_file")],
     Raise AttributeError).
Proof.
  apply (non_mapping_entry_raises_AttributeError ref_validate
           (JStr "Compilation") example_fragments false 1
           {| message := Some "instance is not of type 'object'" |}
           {| message := Some "instance is not of type 'object'" |}).
  - reflexivity.
  - discriminate.
  - discriminate.
  - reflexivity.
  - reflexivity.
Defined.

(** ** Runs that return: what was checked *)

Section Soundness.

Variable validate : json -> json -> validate_outcome.

Lemma whole_chunk_ok_inv t chunk_schema prefix required warn tr :
  validate_schema validate t chunk_schema "" prefix required warn
  = (tr, Ok tt) ->
  t = JNull \/ validate t chunk_schema = Valid.
Proof.
  intros H. apply validate_schema_ok_inv in H
    as (c & cs & R & _ & [-> | (_ & V & _)]);
    rewrite resolve_whole in R; inversion R; subst; auto.
Qed.

Lemma keyed_chunk_ok_inv j_ s_ key prefix required warn tr chunk :
  key <> "" ->
  validate_schema validate j_ s_ key prefix required warn = (tr, Ok tt) ->
  py_get j_ key = Ok chunk ->
  chunk <> JNull ->
  exists chunk_schema,
    py_get s_ key = Ok chunk_schema /\ validate chunk chunk_schema = Valid.
Proof.
  intros Hk H Hj Hc. apply validate_schema_ok_inv in H
    as (c & cs & R & _ & V).
  rewrite resolve_key, Hj in R by assumption.
  destruct (py_get s_ key) as [cs' | e]; inversion R; subst.
  exists cs. split; [reflexivity |].
  destruct V as [-> | (_ & V & _)]; [contradiction | exact V].
Qed.

Lemma kind_disambiguator_ok_inv t fr warn n tr m b :
  kind_disambiguator validate t fr warn n = (tr, Ok (m, b)) ->
  (b = false /\ m = n)
  \/ (b = true
      /\ (m = S n \/ m = S (S n))
      /\ exists extra_schema tr',
          In extra_schema [sub_limit_schema fr; filecheck_schema fr]
          /\ validate_schema validate t extra_schema "" "" false warn
             = (tr', Ok tt)).
Proof.
  unfold kind_disambiguator. cbn [for_state]. intros H.
  apply bind_inv_ok in H as (tr1 & st1 & tr2 & H1 & H & _).
  apply bind_inv_ok in H as (tr3 & st2 & tr4 & H2 & H & _).
  inversion H; subst st2.
  apply attempt_ok_inv in H1, H2.
  destruct H1 as [-> | (-> & tr' & V1)].
  - destruct H2 as [E | (E & tr' & V2)]; inversion E; subst.
    + now left.
    + right. split; [reflexivity |]. split; [now left |].
      exists (filecheck_schema fr), tr'. split; [cbn; auto | exact V2].
  - right. cbn [fst] in H2.
    destruct H2 as [E | (E & _)]; inversion E; subst;
      (split; [reflexivity |]); (split; [auto |]);
      exists (sub_limit_schema fr), tr'; (split; [cbn; auto | exact V1]).
Qed.

Lemma testcase_key_nonempty key : In key testcase_keys -> key <> "".
Proof.
  intros Hin ->. cbn in Hin.
  repeat (destruct Hin as [Hin | Hin]; [discriminate Hin |]).
  exact Hin.
Qed.

Lemma global_key_nonempty key : In key global_keys -> key <> "".
Proof.
  intros Hin ->. cbn in Hin.
  repeat (destruct Hin as [Hin | Hin]; [discriminate Hin |]).
  exact Hin.
Qed.

Lemma elements_intro t key v l :
  subscript t key = Ok v -> py_iter v = Ok l -> elements t key = Ok l.
Proof. unfold elements. now intros -> ->. Qed.

(** The checks made on a regular testcase that passes. *)
Lemma regular_testcase_ok_inv t fr warn n tr n' :
  regular_testcase validate t fr warn n = (tr, Ok n') ->
  let t_name := "testcase_" ++ str_of_nat n in
  n' = S n
  /\ (forall key, In key testcase_keys ->
        exists tr', validate_schema validate t (p_s fr) key t_name true warn
                    = (tr', Ok tt))
  /\ (exists cs scs vs,
         elements t "containers" = Ok cs
         /\ elements t "solution_containers" = Ok scs
         /\ elements t "validation" = Ok vs
         /\ (forall c, In c (cs ++ scs) ->
               exists tr', validate_schema validate c (c_schema fr) ""
                             t_name true warn = (tr', Ok tt))
         /\ (forall v, In v vs ->
               exists tr1 tr2,
                 validate_schema validate v (abs_v_schema fr) ""
                   t_name true warn = (tr1, Ok tt)
                 /\ validate_schema validate v (spec_v_schema fr) ""
                      t_name true warn = (tr2, Ok tt)))
  /\ exists tr', validate_schema validate t (t_s fr) "" t_name true warn
                 = (tr', Ok tt).
Proof.
  intros E t_name. unfold regular_testcase in E. fold t_name in E.
  apply bind_inv_ok in E as (? & [] & ? & Hkeys & E & _).
  apply bind_inv_ok in E as (? & containers & ? & Hc & E & _).
  apply bind_inv_ok in E as (? & cs & ? & Hcs & E & _).
  apply bind_inv_ok in E as (? & [] & ? & Hfc & E & _).
  apply bind_inv_ok in E as (? & solution_containers & ? & Hs & E & _).
  apply bind_inv_ok in E as (? & scs & ? & Hscs & E & _).
  apply bind_inv_ok in E as (? & [] & ? & Hfs & E & _).
  apply bind_inv_ok in E as (? & validators & ? & Hv & E & _).
  apply bind_inv_ok in E as (? & vs & ? & Hvs & E & _).
  apply bind_inv_ok in E as (? & [] & ? & Hfv & E & _).
  apply bind_inv_ok in E as (trw & [] & ? & Hw & E & _).
  apply lift_inv_ok in Hc, Hcs, Hs, Hscs, Hv, Hvs.
  inversion E; subst n'.
  split; [reflexivity |]. split; [| split].
  - intros key Hin. exact (for_each_ok_inv _ _ _ Hkeys key Hin).
  - exists cs, scs, vs.
    repeat split; try (eapply elements_intro; eassumption).
    + intros c Hin. apply in_app_or in Hin as [Hin | Hin].
      * exact (for_each_ok_inv _ _ _ Hfc c Hin).
      * exact (for_each_ok_inv _ _ _ Hfs c Hin).
    + intros v Hin.
      destruct (for_each_ok_inv _ _ _ Hfv v Hin) as (tr' & Hb).
      apply bind_inv_ok in Hb as (tr1 & [] & tr2 & H1 & H2 & _).
      now exists tr1, tr2.
  - now exists trw.
Qed.

Lemma regular_testcase_ok_mapping t fr warn n tr n' :
  regular_testcase validate t fr warn n = (tr, Ok n') -> t <> JNull.
Proof.
  intros E. apply regular_testcase_ok_inv in E
    as (_ & _ & (cs & _ & _ & Hc & _) & _).
  intros ->. discriminate Hc.
Qed.

Lemma testcase_body_ok_inv fr warn t n tr n' :
  testcase_body validate fr warn t n = (tr, Ok n') ->
  (n' = S n \/ n' = S (S n))
  /\ (t = JNull
      \/ validate t (sub_limit_schema fr) = Valid
      \/ validate t (filecheck_schema fr) = Valid
      \/ validate t (t_s fr) = Valid).
Proof.
  unfold testcase_body. intros H.
  apply bind_inv_ok in H as (tr1 & [m b] & tr2 & K & H & _).
  apply kind_disambiguator_ok_inv in K
    as [(-> & ->) | (-> & Hm & extra & tr' & Hin & V)]; cbn [fst snd] in H.
  - pose proof (regular_testcase_ok_mapping _ _ _ _ _ _ H) as Ht.
    apply regular_testcase_ok_inv in H as (-> & _ & _ & (tr' & W)).
    split; [now left |].
    apply whole_chunk_ok_inv in W as [-> | W]; [contradiction | auto].
  - inversion H; subst n'. split; [exact Hm |].
    apply whole_chunk_ok_inv in V as [-> | V]; [now left |].
    destruct Hin as [<- | [<- | []]]; auto.
Qed.

Lemma testcase_loop_ok_inv fr warn ts n tr n' :
  testcase_loop validate fr warn ts n = (tr, Ok n') ->
  n + length ts <= n' <= n + 2 * length ts.
Proof.
  unfold testcase_loop. revert n tr.
  induction ts as [| t ts IH]; intros n tr H; cbn [for_state] in H.
  - inversion H. cbn. lia.
  - apply bind_inv_ok in H as (tr1 & m & tr2 & B & H & _).
    apply testcase_body_ok_inv in B as (Hm & _).
    apply IH in H. cbn [length]. lia.
Qed.

End Soundness.

Section DriverSoundness.

Variable validate : json -> json -> validate_outcome.

Lemma testcase_loop_entries_accepted fr warn ts n tr n' :
  testcase_loop validate fr warn ts n = (tr, Ok n') ->
  forall t, In t ts ->
    t = JNull
    \/ validate t (sub_limit_schema fr) = Valid
    \/ validate t (filecheck_schema fr) = Valid
    \/ validate t (t_s fr) = Valid.
Proof.
  unfold testcase_loop. intros H t Hin.
  destruct (for_state_ok_inv _ _ _ _ _ H t Hin) as (m & tr' & m' & B).
  now apply testcase_body_ok_inv in B.
Qed.

Lemma complete_ok_inv j_ s_ warn tr :
  complete_config_validator validate j_ s_ warn = (tr, Ok tt) ->
  exists s_prop fr ts trg trl trw n',
    subscript s_ "properties" = Ok s_prop
    /\ global_step validate j_ s_prop warn = (trg, Ok tt)
    /\ snd (load_fragments s_) = Ok fr
    /\ elements j_ "testcases" = Ok ts
    /\ testcase_loop validate fr warn ts 1 = (trl, Ok n')
    /\ validate_schema validate j_ s_ "" "Your config json" true warn
       = (trw, Ok tt).
Proof.
  unfold complete_config_validator. intros E.
  apply bind_inv_ok in E as (? & s_prop & ? & Hp & E & _).
  apply bind_inv_ok in E as (trg & [] & ? & Hg & E & _).
  apply bind_inv_ok in E as (? & testcases & ? & Hj & E & _).
  apply bind_inv_ok in E as (? & fr & ? & Hf & E & _).
  apply bind_inv_ok in E as (? & ts & ? & Hi & E & _).
  apply bind_inv_ok in E as (trl & n' & trw & Hl & Hw & _).
  apply lift_inv_ok in Hp, Hj, Hi.
  exists s_prop, fr, ts, trg, trl, trw, n'.
  repeat split; trivial.
  - now rewrite Hf.
  - now apply elements_intro with (v := testcases).
Qed.

End DriverSoundness.

(** X5: the testcase index only moves forward, by one or two for each
    entry: after a loop over [ts] that returns, it lies between
    [n + length ts] and [n + 2 * length ts]. *)
Theorem testcase_index_advances_by_one_or_two :
  forall validate fr warn ts n tr n',
    testcase_loop validate fr warn ts n = (tr, Ok n') ->
    n + length ts <= n' <= n + 2 * length ts.
Proof.
  intros validate fr warn ts n tr n'. apply testcase_loop_ok_inv.
Qed.

Lemma testcase_index_advances_by_one_or_two_witness :
  1 + length [example_testcase (JNum 5); both_kinds_entry] <= 4
  <= 1 + 2 * length [example_testcase (JNum 5); both_kinds_entry].
Proof.
  apply (testcase_index_advances_by_one_or_two ref_validate example_fragments
           false [example_testcase (JNum 5); both_kinds_entry] 1
           (fst (testcase_loop ref_validate example_fragments false
                   [example_testcase (JNum 5); both_kinds_entry] 1))
           4).
  reflexivity.
Defined.

(** X6: a regular testcase that passes was accepted piece by piece.  Its
    index is advanced by one; the matcher accepted the entry as a whole
    under the testcase schema, every one of the thirteen keys it holds
    (with a value other than null) under that key's schema, every
    container and solution container other than null under the container
    schema, and every validation object other than null under both
    validation schemas. *)
Theorem regular_testcase_sound :
  forall validate t fr warn n tr n',
    regular_testcase validate t fr warn n = (tr, Ok n') ->
    n' = S n
    /\ validate t (t_s fr) = Valid
    /\ (forall key chunk,
           In key testcase_keys ->
           py_get t key = Ok chunk ->
           chunk <> JNull ->
           exists chunk_schema,
             py_get (p_s fr) key = Ok chunk_schema
             /\ validate chunk chunk_schema = Valid)
    /\ exists cs scs vs,
        elements t "containers" = Ok cs
        /\ elements t "solution_containers" = Ok scs
        /\ elements t "validation" = Ok vs
        /\ (forall c, In c (cs ++ scs) -> c <> JNull ->
              validate c (c_schema fr) = Valid)
        /\ (forall v, In v vs -> v <> JNull ->
              validate v (abs_v_schema fr) = Valid
              /\ validate v (spec_v_schema fr) = Valid).
Proof.
  intros validate t fr warn n tr n' E.
  pose proof (regular_testcase_ok_mapping _ _ _ _ _ _ _ E) as Ht.
  apply regular_testcase_ok_inv in E
    as (-> & Hkeys & (cs & scs & vs & Hc & Hs & Hv & Hcs & Hvs) & (tr' & W)).
  split; [reflexivity |]. split; [| split].
  - apply whole_chunk_ok_inv in W as [-> | W]; [contradiction | exact W].
  - intros key chunk Hin Hj Hn.
    destruct (Hkeys key Hin) as (trk & K).
    eapply keyed_chunk_ok_inv; eauto using testcase_key_nonempty.
  - exists cs, scs, vs. repeat split; trivial.
    + intros c Hin Hn. destruct (Hcs c Hin) as (trc & C).
      apply whole_chunk_ok_inv in C as [-> | C]; [contradiction | exact C].
    + destruct (Hvs v H) as (tr1 & tr2 & V1 & _).
      apply whole_chunk_ok_inv in V1 as [-> | V1]; [contradiction | exact V1].
    + destruct (Hvs v H) as (tr1 & tr2 & _ & V2).
      apply whole_chunk_ok_inv in V2 as [-> | V2]; [contradiction | exact V2].
Qed.

Lemma regular_testcase_sound_witness :
  ref_validate (example_testcase (JNum 5)) example_testcase_schema = Valid.
Proof.
  apply (regular_testcase_sound ref_validate (example_testcase (JNum 5))
           example_fragments false 1
           (fst (regular_testcase ref_validate (example_testcase (JNum 5))
                   example_fragments false 1))
           2).
  reflexivity.
Defined.

(** X7: in a run that returns, every entry of the testcase list is null
    or was accepted by the matcher under the submission_limit schema, the
    filecheck schema or the testcase schema. *)
Theorem every_testcase_is_accepted_by_some_schema :
  forall validate j_ s_ warn tr,
    complete_config_validator validate j_ s_ warn = (tr, Ok tt) ->
    exists fr ts,
      snd (load_fragments s_) = Ok fr
      /\ elements j_ "testcases" = Ok ts
      /\ forall t, In t ts ->
           t = JNull
           \/ validate t (sub_limit_schema fr) = Valid
           \/ validate t (filecheck_schema fr) = Valid
           \/ validate t (t_s fr) = Valid.
Proof.
  intros validate j_ s_ warn tr E.
  apply complete_ok_inv in E
    as (s_prop & fr & ts & trg & trl & trw & n' & _ & _ & Hf & Ht & Hl & _).
  exists fr, ts. repeat split; trivial.
  now apply testcase_loop_entries_accepted with (1 := Hl).
Qed.

Lemma every_testcase_is_accepted_by_some_schema_witness :
  exists fr ts,
    snd (load_fragments example_schema) = Ok fr
    /\ elements example_config "testcases" = Ok ts
    /\ forall t, In t ts ->
         t = JNull
         \/ ref_validate t (sub_limit_schema fr) = Valid
         \/ ref_validate t (filecheck_schema fr) = Valid
         \/ ref_validate t (t_s fr) = Valid.
Proof.
  apply (every_testcase_is_accepted_by_some_schema ref_validate
           example_config example_schema false
           (fst (complete_config_validator ref_validate example_config
                   example_schema false))).
  reflexivity.
Defined.

(** X8: a run that returns ended with the matcher accepting the entire
    configuration under the entire schema, and before that the matcher
    accepted every global key the configuration holds (with a value other
    than null) under that key's entry in the schema's [properties]. *)
Theorem passing_run_is_accepted_as_a_whole :
  forall validate j_ s_ warn tr,
    complete_config_validator validate j_ s_ warn = (tr, Ok tt) ->
    validate j_ s_ = Valid
    /\ (exists tr', tr = (tr' ++ [EvValidate j_ s_])%list)
    /\ forall key chunk,
        In key global_keys ->
        py_get j_ key = Ok chunk ->
        chunk <> JNull ->
        exists s_prop chunk_schema,
          subscript s_ "properties" = Ok s_prop
          /\ py_get s_prop key = Ok chunk_schema
          /\ validate chunk chunk_schema = Valid.
Proof.
  intros validate j_ s_ warn tr E.
  pose proof E as E'.
  rewrite complete_is_piecewise_then_whole in E'.
  apply bind_inv_ok in E' as (tr1 & [] & tr2 & P & W & ->).
  destruct (piecewise_ok_needs_mappings _ _ _ _ _ P) as [Hj Hs].
  unfold whole_document_step in W.
  rewrite validate_schema_match with (chunk := j_) (chunk_schema := s_) in W
    by (reflexivity || assumption).
  split; [| split].
  - destruct (validate j_ s_); try discriminate; reflexivity.
  - exists tr1. inversion W. reflexivity.
  - intros key chunk Hin Hc Hn.
    apply complete_ok_inv in E
      as (s_prop & fr & ts & trg & trl & trw & n' & Hp & Hg & _).
    destruct (for_each_ok_inv _ _ _ Hg key Hin) as (trk & K).
    destruct (keyed_chunk_ok_inv validate j_ s_prop key "global" true warn
                trk chunk) as (cs & Hcs & V);
      auto using global_key_nonempty.
    now exists s_prop, cs.
Qed.

Lemma passing_run_is_accepted_as_a_whole_witness :
  ref_validate example_config example_schema = Valid.
Proof.
  apply (passing_run_is_accepted_as_a_whole ref_validate example_config
           example_schema false
           (fst (complete_config_validator ref_validate example_config
                   example_schema false))).
  reflexivity.
Defined.

(** ** What the schema and the testcase list must look like *)

Lemma load_fragments_ok_inv s_ tr fr :
  load_fragments s_ = (tr, Ok fr) ->
  definition s_ "testcase" = Ok (t_s fr)
  /\ subscript (t_s fr) "properties" = Ok (p_s fr)
  /\ definition s_ "submission_limit" = Ok (sub_limit_schema fr)
  /\ definition s_ "filecheck" = Ok (filecheck_schema fr)
  /\ definition s_ "container" = Ok (c_schema fr)
  /\ definition s_ "abstract_validation_object" = Ok (abs_v_schema fr)
  /\ definition s_ "validator_definitions" = Ok (spec_v_schema fr).
Proof.
  unfold load_fragments. intros E.
  apply bind_inv_ok in E as (? & v1 & ? & H1 & E & _).
  apply bind_inv_ok in E as (? & tc & ? & H2 & E & _).
  apply bind_inv_ok in E as (? & v3 & ? & H3 & E & _).
  apply bind_inv_ok in E as (? & v4 & ? & H4 & E & _).
  apply bind_inv_ok in E as (? & v5 & ? & H5 & E & _).
  apply bind_inv_ok in E as (? & v6 & ? & H6 & E & _).
  apply bind_inv_ok in E as (? & v7 & ? & H7 & E & _).
  apply bind_inv_ok in E as (? & v8 & ? & H8 & E & _).
  apply lift_inv_ok in H1, H2, H3, H4, H5, H6, H7, H8.
  inversion E; subst fr. cbn.
  assert (tc = v1) by congruence. subst tc. now repeat split.
Qed.

Lemma load_fragments_trace s_ : fst (load_fragments s_) = [].
Proof.
  unfold load_fragments.
  repeat match goal with
         | |- context [lift ?res] =>
             destruct res; [rewrite bind_lift_ok | reflexivity]
         end.
  reflexivity.
Qed.

(** X9: the schema has to hold [properties] and all six fragments under
    [definitions], whatever the configuration is and even when it has no
    testcases.  Without [properties] the run raises at once, before
    anything is checked; and when one of the fragments cannot be read, or
    the testcase fragment has no [properties], no run returns.  When the
    fragments can be read they are exactly the schema's entries. *)
Theorem schema_must_have_its_parts :
  forall validate j_ s_ warn,
    (forall e,
        subscript s_ "properties" = Raise e ->
        complete_config_validator validate j_ s_ warn = ([], Raise e))
    /\ (forall name e,
           In name fragment_names ->
           definition s_ name = Raise e ->
           snd (complete_config_validator validate j_ s_ warn) <> Ok tt)
    /\ (forall tc e,
           definition s_ "testcase" = Ok tc ->
           subscript tc "properties" = Raise e ->
           snd (complete_config_validator validate j_ s_ warn) <> Ok tt)
    /\ (forall fr,
           snd (load_fragments s_) = Ok fr ->
           definition s_ "testcase" = Ok (t_s fr)
           /\ subscript (t_s fr) "properties" = Ok (p_s fr)
           /\ definition s_ "submission_limit" = Ok (sub_limit_schema fr)
           /\ definition s_ "filecheck" = Ok (filecheck_schema fr)
           /\ definition s_ "container" = Ok (c_schema fr)
           /\ definition s_ "abstract_validation_object"
              = Ok (abs_v_schema fr)
           /\ definition s_ "validator_definitions" = Ok (spec_v_schema fr)).
Proof.
  intros validate j_ s_ warn.
  assert (F : forall fr, snd (load_fragments s_) = Ok fr ->
                         load_fragments s_ = ([], Ok fr)).
  { intros fr H. rewrite <- H, <- (load_fragments_trace s_).
    now destruct (load_fragments s_). }
  assert (K : snd (complete_config_validator validate j_ s_ warn) = Ok tt ->
              exists fr, load_fragments s_ = ([], Ok fr)).
  { intros H.
    destruct (complete_config_validator validate j_ s_ warn) as [tr res] eqn:E.
    cbn [snd] in H. subst res.
    apply complete_ok_inv in E
      as (s_prop & fr & ts & trg & trl & trw & n' & _ & _ & Hf & _).
    exists fr. now apply F. }
  split; [| split; [| split]].
  - intros e H. unfold complete_config_validator. now rewrite H.
  - intros name e Hin Hd Hok. destruct (K Hok) as (fr & Hf).
    apply load_fragments_ok_inv in Hf as (H1 & _ & H3 & H4 & H5 & H6 & H7).
    cbn in Hin.
    destruct Hin as [<- | [<- | [<- | [<- | [<- | [<- | []]]]]]]; congruence.
  - intros tc e Hd Hp Hok. destruct (K Hok) as (fr & Hf).
    apply load_fragments_ok_inv in Hf as (H1 & H2 & _). congruence.
  - intros fr Hf. now apply load_fragments_ok_inv with (tr := []), F.
Qed.

Lemma schema_must_have_its_parts_witness :
  complete_config_validator ref_validate example_config
    (JObj [("definitions", example_definitions)]) true
  = ([], Raise (KeyError "properties")).
Proof.
  apply (proj1 (schema_must_have_its_parts ref_validate example_config
                  (JObj [("definitions", example_definitions)]) true)).
  reflexivity.
Defined.

(** X10: a value under "testcases" that cannot be iterated (null, a
    boolean or a number) is not taken as an absent list: once the global
    step has passed and the fragments are read, the run raises
    [TypeError], with no testcase checked. *)
Theorem testcases_must_be_iterable :
  forall validate j_ s_ warn s_prop trg testcases fr,
    subscript s_ "properties" = Ok s_prop ->
    global_step validate j_ s_prop warn = (trg, Ok tt) ->
    subscript j_ "testcases" = Ok testcases ->
    snd (load_fragments s_) = Ok fr ->
    not_iterable testcases = true ->
    complete_config_validator validate j_ s_ warn = (trg, Raise TypeError).
Proof.
  intros validate j_ s_ warn s_prop trg testcases fr Hp Hg Hj Hf Hn.
  unfold complete_config_validator.
  rewrite Hp, bind_lift_ok, Hg, bind_ok, Hj, bind_lift_ok.
  pose proof (load_fragments_trace s_) as Ht.
  destruct (load_fragments s_) as [trf res]. cbn [fst snd] in *. subst.
  rewrite bind_ok.
  destruct testcases; try discriminate Hn; cbn; now rewrite app_nil_r.
Qed.

Lemma testcases_must_be_iterable_witness :
  complete_config_validator ref_validate (JObj [("testcases", JNull)])
    example_schema false
  = ([], Raise TypeError).
Proof.
  apply (testcases_must_be_iterable ref_validate
           (JObj [("testcases", JNull)]) example_schema false
           (match subscript example_schema "properties" with
            | Ok p => p
            | Raise _ => JNull
            end)
           [] JNull example_fragments).
  - reflexivity.
  - reflexivity.
  - reflexivity.
  - reflexivity.
  - reflexivity.
Defined.

(** X11: entries that neither extra schema accepts are numbered one by
    one: after a loop over such entries that returns, the index has
    advanced by exactly the number of entries, so that the entry at
    position [i] was checked under the name testcase_(n+i). *)
Theorem regular_entries_are_numbered_consecutively :
  forall validate fr warn ts n tr n',
    (forall t, In t ts ->
       t <> JNull
       /\ accepts validate t (sub_limit_schema fr) = false
       /\ accepts validate t (filecheck_schema fr) = false) ->
    testcase_loop validate fr warn ts n = (tr, Ok n') ->
    n' = n + length ts.
Proof.
  intros validate fr warn ts. unfold testcase_loop.
  induction ts as [| t ts IH]; intros n tr n' Hall H; cbn [for_state] in H.
  - inversion H. cbn. lia.
  - apply bind_inv_ok in H as (tr1 & m & tr2 & B & H & _).
    apply IH in H; [| intros t' Hin; apply Hall; now right].
    destruct (Hall t (or_introl eq_refl)) as (Ht & A1 & A2).
    unfold testcase_body in B.
    apply bind_inv_ok in B as (tr3 & [k b] & tr4 & K & B & _).
    apply kind_disambiguator_ok_inv in K
      as [(-> & ->) | (-> & _ & extra & tr' & Hin & V)]; cbn [fst snd] in B.
    + apply regular_testcase_ok_inv in B as (-> & _). cbn [length]. lia.
    + apply whole_chunk_ok_inv in V as [-> | V]; [contradiction |].
      unfold accepts in A1, A2.
      destruct Hin as [<- | [<- | []]]; rewrite V in *; discriminate.
Qed.

Lemma regular_entries_are_numbered_consecutively_witness :
  3 = 1 + length [example_testcase (JNum 5); example_testcase (JNum 7)].
Proof.
  apply (regular_entries_are_numbered_consecutively ref_validate
           example_fragments false
           [example_testcase (JNum 5); example_testcase (JNum 7)] 1
           (fst (testcase_loop ref_validate example_fragments false
                   [example_testcase (JNum 5); example_testcase (JNum 7)] 1))
           3).
  - intros t [<- | [<- | []]]; repeat split; discriminate.
  - reflexivity.
Defined.

(** ** What a run prints, and what a raised report looks like *)

Section Invariants.

Context {A : Type}.
Variable P : event -> Prop.
Variable Q : SubmittySchemaException -> Prop.

Lemma trace_all_ret (a : A) : trace_all P (ret a).
Proof. constructor. Qed.

Lemma trace_all_lift (res : result A) : trace_all P (lift res).
Proof. constructor. Qed.

Lemma trace_all_try_except (body handler : M A) :
  trace_all P body -> trace_all P handler ->
  trace_all P (try_except body handler).
Proof.
  unfold trace_all. intros Hb Hh.
  destruct body as [tr [a | e]]; [exact Hb |].
  destruct e; try exact Hb.
  cbn. destruct handler as [tr' res]. cbn in *. apply Forall_app. now split.
Qed.

Lemma raises_only_ret (a : A) : raises_only Q (ret a).
Proof. intros r H. discriminate H. Qed.

Lemma raises_only_lift (res : result A) :
  no_report res -> raises_only Q (lift res).
Proof. intros Hn r H. cbn in H. subst res. contradiction. Qed.

Lemma raises_only_try_except (body handler : M A) :
  raises_only Q handler -> raises_only Q (try_except body handler).
Proof.
  intros Hh r. destruct body as [tr [a | e]]; [discriminate |].
  destruct e; try discriminate.
  cbn. destruct handler as [tr' res] eqn:E. cbn. intros H.
  apply (Hh r). exact H.
Qed.

End Invariants.

Lemma trace_all_bind {A B} P (m : M A) (f : A -> M B) :
  trace_all P m -> (forall a, trace_all P (f a)) -> trace_all P (bind m f).
Proof.
  unfold trace_all. intros Hm Hf. destruct m as [tr [a | e]].
  - rewrite bind_ok. cbn [fst]. apply Forall_app. split; [exact Hm | apply Hf].
  - exact Hm.
Qed.

Lemma raises_only_bind {A B} Q (m : M A) (f : A -> M B) :
  raises_only Q m -> (forall a, raises_only Q (f a)) ->
  raises_only Q (bind m f).
Proof.
  intros Hm Hf r. destruct m as [tr [a | e]].
  - rewrite bind_ok. cbn [snd]. apply Hf.
  - rewrite bind_raise. cbn [snd]. intros H. apply (Hm r). cbn [snd].
    congruence.
Qed.

Lemma trace_all_for_each {A} P (l : list A) (body : A -> M unit) :
  (forall x, trace_all P (body x)) -> trace_all P (for_each l body).
Proof.
  intros H. induction l as [| x l IH]; cbn [for_each].
  - apply trace_all_ret.
  - apply trace_all_bind; [apply H | intros _; exact IH].
Qed.

Lemma raises_only_for_each {A} Q (l : list A) (body : A -> M unit) :
  (forall x, raises_only Q (body x)) -> raises_only Q (for_each l body).
Proof.
  intros H. induction l as [| x l IH]; cbn [for_each].
  - apply raises_only_ret.
  - apply raises_only_bind; [apply H | intros _; exact IH].
Qed.

Lemma trace_all_for_state {A S} P (l : list A) (body : A -> S -> M S) :
  (forall x s, trace_all P (body x s)) ->
  forall s, trace_all P (for_state l body s).
Proof.
  intros H. induction l as [| x l IH]; intros s; cbn [for_state].
  - apply trace_all_ret.
  - apply trace_all_bind; [apply H | intros s'; apply IH].
Qed.

Lemma raises_only_for_state {A S} Q (l : list A) (body : A -> S -> M S) :
  (forall x s, raises_only Q (body x s)) ->
  forall s, raises_only Q (for_state l body s).
Proof.
  intros H. induction l as [| x l IH]; intros s; cbn [for_state].
  - apply raises_only_ret.
  - apply raises_only_bind; [apply H | intros s'; apply IH].
Qed.

Section DriverInvariants.

Variable validate : json -> json -> validate_outcome.
Variable warn : bool.

Lemma trace_all_validate_schema j_ s_ key prefix required :
  trace_all (validator_event warn)
    (validate_schema validate j_ s_ key prefix required warn).
Proof.
  unfold trace_all.
  destruct (validate_schema_shape validate j_ s_ key prefix required warn)
    as [(e & R & E) | [(c & R & E) | [(cs & R & Hs & E) | (c & cs & R & Hs & Hc & E)]]];
    rewrite E; cbn [fst].
  - constructor.
  - constructor.
  - destruct warn eqn:W; [| constructor].
    constructor; [| constructor].
    right. split; [reflexivity |]. now exists prefix, key.
  - constructor; [| constructor]. left. now exists c, cs.
Qed.

Lemma raises_only_validate_schema j_ s_ key prefix required :
  raises_only (well_formed_report validate)
    (validate_schema validate j_ s_ key prefix required warn).
Proof.
  intros r.
  destruct (validate_schema_shape validate j_ s_ key prefix required warn)
    as [(e & R & E) | [(c & R & E) | [(cs & R & Hs & E) | (c & cs & R & Hs & Hc & E)]]];
    rewrite E; cbn [fst snd].
  - intros H. injection H as ->. unfold resolve in R.
    destruct (String.eqb key ""); [discriminate |].
    destruct j_, s_; cbn in R;
      repeat match type of R with
             | context [lookup ?k ?f] => destruct (lookup k f)
             end; discriminate.
  - discriminate.
  - discriminate.
  - destruct (validate c cs) as [| e | name] eqn:V; try discriminate.
    intros H. inversion H; subst r. unfold well_formed_report.
    cbn [config_json schema format_report schema_message my_message title].
    repeat split.
    + intros ->. discriminate.
    + intros ->. discriminate.
    + now exists e.
Qed.

Ltac walk_driver leaf body :=
  repeat first
    [ apply leaf
    | apply body
    | apply trace_all_ret | apply raises_only_ret
    | apply trace_all_lift
    | apply raises_only_lift;
      first [ apply no_report_subscript | apply no_report_py_iter
            | apply no_report_definition ]
    | apply trace_all_try_except | apply raises_only_try_except
    | apply trace_all_for_each; intros ?
    | apply raises_only_for_each; intros ?
    | apply trace_all_for_state; intros ? ?
    | apply raises_only_for_state; intros ? ?
    | apply trace_all_bind; [| intros ?]
    | apply raises_only_bind; [| intros ?] ].

Lemma trace_all_testcase_body fr t n :
  trace_all (validator_event warn) (testcase_body validate fr warn t n).
Proof.
  unfold testcase_body, kind_disambiguator.
  apply trace_all_bind; [walk_driver trace_all_validate_schema trace_all_validate_schema | intros st].
  destruct (snd st); unfold regular_testcase;
    walk_driver trace_all_validate_schema trace_all_validate_schema.
Qed.

Lemma raises_only_testcase_body fr t n :
  raises_only (well_formed_report validate)
    (testcase_body validate fr warn t n).
Proof.
  unfold testcase_body, kind_disambiguator.
  apply raises_only_bind; [walk_driver raises_only_validate_schema raises_only_validate_schema | intros st].
  destruct (snd st); unfold regular_testcase;
    walk_driver raises_only_validate_schema raises_only_validate_schema.
Qed.

Lemma trace_all_complete j_ s_ :
  trace_all (validator_event warn)
    (complete_config_validator validate j_ s_ warn).
Proof.
  unfold complete_config_validator, global_step, load_fragments,
    testcase_loop.
  walk_driver trace_all_validate_schema trace_all_testcase_body.
Qed.

Lemma raises_only_complete j_ s_ :
  raises_only (well_formed_report validate)
    (complete_config_validator validate j_ s_ warn).
Proof.
  unfold complete_config_validator, global_step, load_fragments,
    testcase_loop.
  walk_driver raises_only_validate_schema raises_only_testcase_body.
Qed.

End DriverInvariants.

(** X12: the validator prints nothing but the warning of line 134, and
    that on standard output: every event of a run is a matcher call or,
    when [warn] is on, such a warning line; with [warn] off a run prints
    nothing at all. *)
Theorem validator_prints_warnings_only :
  forall validate j_ s_ warn,
    Forall (validator_event warn)
      (fst (complete_config_validator validate j_ s_ warn))
    /\ Forall (fun ev => is_validate ev = true)
         (fst (complete_config_validator validate j_ s_ false)).
Proof.
  intros validate j_ s_ warn. split.
  - apply trace_all_complete.
  - pose proof (trace_all_complete validate false j_ s_) as H.
    unfold trace_all in H. revert H. apply Forall_impl.
    intros ev [(i & s & ->) | (W & _)]; [reflexivity | discriminate W].
Qed.

(** X13: every report that a run raises was built at lines 140-145: it
    holds a chunk and a schema that are not null and that the matcher
    rejected, the matcher's message, and the summary
    "ERROR: <title> was not properly formatted"; rendering it therefore
    starts with an empty line and that summary followed by a colon. *)
Theorem raised_reports_are_well_formed :
  forall validate json_dumps str_of_tuple j_ s_ warn r,
    snd (complete_config_validator validate j_ s_ warn)
    = Raise (SubmittySchemaExn r) ->
    config_json r <> JNull
    /\ schema r <> JNull
    /\ my_message r
       = MsgStr ("ERROR: " ++ title r ++ " was not properly formatted")
    /\ (exists e,
           validate (config_json r) (schema r) = Invalid e
           /\ schema_message r = message e)
    /\ exists rest,
        fst (print_human_readable_error json_dumps str_of_tuple r)
        = EvPrint Stderr ""
          :: EvPrint Stderr
               (("ERROR: " ++ title r ++ " was not properly formatted")
                  ++ ":")
          :: rest.
Proof.
  intros validate json_dumps str_of_tuple j_ s_ warn r H.
  destruct (raises_only_complete validate warn j_ s_ r H)
    as (Hc & Hs & Hm & He).
  repeat split; trivial.
  unfold print_human_readable_error. rewrite Hm. cbn [str_of_message].
  destruct (schema_message r); eexists; reflexivity.
Qed.

Lemma raised_reports_are_well_formed_witness :
  exists r,
    snd (complete_config_validator ref_validate config_with_two_violations
           example_schema false)
    = Raise (SubmittySchemaExn r)
    /\ my_message r
       = MsgStr ("ERROR: " ++ title r ++ " was not properly formatted").
Proof.
  eexists. split; [reflexivity |].
  apply (raised_reports_are_well_formed ref_validate ref_dumps
           ref_str_of_tuple config_with_two_violations example_schema false).
  reflexivity.
Defined.

(** ** A single call, and the keys the piecewise checks read *)

Lemma resolve_raises_AttributeError j_ s_ key e :
  resolve j_ s_ key = Raise e -> e = AttributeError.
Proof.
  unfold resolve. destruct (String.eqb key ""); [discriminate |].
  destruct j_, s_; cbn;
    repeat match goal with
           | |- context [lookup ?k ?f] => destruct (lookup k f)
           end; congruence.
Qed.

(** X14: a call of [validate_schema] leaves at most one event (one
    matcher call or one warning) and ends in one of four ways: it
    returns, or raises [AttributeError], a report, or an error of the
    matcher; looking up a key never raises [KeyError] or [TypeError]. *)
Theorem validate_schema_outcomes :
  forall validate j_ s_ key prefix required warn,
    length (fst (validate_schema validate j_ s_ key prefix required warn))
    <= 1
    /\ (snd (validate_schema validate j_ s_ key prefix required warn)
        = Ok tt
        \/ snd (validate_schema validate j_ s_ key prefix required warn)
           = Raise AttributeError
        \/ (exists r,
               snd (validate_schema validate j_ s_ key prefix required warn)
               = Raise (SubmittySchemaExn r))
        \/ exists name,
            snd (validate_schema validate j_ s_ key prefix required warn)
            = Raise (MatcherError name)).
Proof.
  intros validate j_ s_ key prefix required warn.
  destruct (validate_schema_shape validate j_ s_ key prefix required warn)
    as [(e & R & E) | [(c & R & E) | [(cs & R & Hs & E) | (c & cs & R & Hs & Hc & E)]]];
    rewrite E; cbn [fst snd].
  - apply resolve_raises_AttributeError in R as ->. cbn. auto.
  - cbn. auto.
  - destruct warn; cbn; auto.
  - cbn [length]. split; [lia |].
    destruct (validate c cs); eauto.
Qed.

Lemma validate_schema_same_chunk validate j_ j' s_ key prefix required warn :
  key <> "" ->
  py_get j_ key = py_get j' key ->
  validate_schema validate j_ s_ key prefix required warn
  = validate_schema validate j' s_ key prefix required warn.
Proof.
  intros Hk Hj. unfold validate_schema.
  rewrite !resolve_key, Hj by assumption.
  destruct (py_get j' key) as [c | e]; [| reflexivity].
  destruct (py_get s_ key) as [cs | e]; [| reflexivity].
  rewrite !bind_lift_ok. cbn [fst snd].
  destruct (is_None cs); reflexivity.
Qed.

Lemma for_each_ext {A} (l : list A) (f g : A -> M unit) :
  (forall x, In x l -> f x = g x) -> for_each l f = for_each l g.
Proof.
  induction l as [| x l IH]; intros H; cbn [for_each]; [reflexivity |].
  rewrite H by now left. apply bind_ext. intros _. apply IH.
  intros y Hy. apply H. now right.
Qed.

(** X15: the piecewise checks read the configuration only through the
    four global keys and "testcases".  Two configurations that agree on
    those get the same trace and the same result from every step before
    the last, so any other top-level key can only be judged by the
    whole-document step. *)
Theorem piecewise_checks_ignore_other_keys :
  forall validate j_ j' s_ warn,
    (forall key, In key global_keys -> py_get j_ key = py_get j' key) ->
    subscript j_ "testcases" = subscript j' "testcases" ->
    piecewise_checks validate j_ s_ warn
    = piecewise_checks validate j' s_ warn.
Proof.
  intros validate j_ j' s_ warn Hg Ht. unfold piecewise_checks.
  apply bind_ext. intros s_prop.
  unfold global_step.
  rewrite for_each_ext
    with (g := fun key => validate_schema validate j' s_prop key "global"
                            true warn).
  - now rewrite Ht.
  - intros key Hin. apply validate_schema_same_chunk.
    + now apply global_key_nonempty.
    + now apply Hg.
Qed.

Lemma piecewise_checks_ignore_other_keys_witness :
  piecewise_checks ref_validate example_config example_schema false
  = piecewise_checks ref_validate
      (JObj [("unknown_key", JNum 1);
             ("autograding", JObj []);
             ("resource_limits", JObj []);
             ("testcases", JArr [example_testcase (JNum 5)])])
      example_schema false.
Proof.
  apply (piecewise_checks_ignore_other_keys ref_validate example_config
           (JObj [("unknown_key", JNum 1);
                  ("autograding", JObj []);
                  ("resource_limits", JObj []);
                  ("testcases", JArr [example_testcase (JNum 5)])])
           example_schema false).
  - intros key [<- | [<- | [<- | [<- | []]]]]; reflexivity.
  - reflexivity.
Defined.

(** ** Fail-fast: the report of the first rejected chunk *)

Section FirstViolation.

Variable validate : json -> json -> validate_outcome.



End FirstViolation.



